(** * lets: branch-name resolution, worktree creation and launcher selection

    A shallow embedding of the parts of [src/lets/cli.py] and
    [src/lets/launchers/] that decide how a branch name is chosen, how a
    worktree is created and how a workspace launcher is picked and driven.

    Text is modelled by [string], holding the UTF-8 encoding of a [str]:
    an ASCII character is one byte below 128, any other character a lead
    byte followed by one to three continuation bytes.  The code inspects
    ASCII characters, with three exceptions, which are modelled as Python
    has them: the white space [str.strip] removes, the decimal digits the
    pattern [\d] matches, and the two letters whose lower case is, or
    begins with, an ASCII letter.  [str.split()] and [int] are applied to
    what tmux prints only, and are modelled on ASCII text.

    External programs are observed through their exit status and their
    captured standard output only, and a program that is run is taken to
    start.  A program that is not on the search path cannot be started:
    [subprocess.run] then raises [FileNotFoundError], which the code
    catches nowhere.  The program always runs git first and looks tmux up
    before using it; the AI tool, [osascript] and the editor it runs
    unseen, so a theorem saying that a function which runs one of these
    returns is stated for hosts that have it on the search path. *)

From Stdlib Require Import String Ascii List ZArith Lia Bool Arith.
From Stdlib Require DecimalString DecimalNat.
Import ListNotations.
Local Open Scope string_scope.

(** ** Python builtins used by the code *)

Module Py.

(** Truth value of a [str] and of a [str | None]. *)
Definition truthy (s : string) : bool :=
  match s with EmptyString => false | String _ _ => true end.

Definition truthy_opt (o : option string) : bool :=
  match o with Some s => truthy s | None => false end.

(** [a or b] on [str | None] operands. *)
Definition or_else (a b : option string) : option string :=
  if truthy_opt a then a else b.

Definition between (lo hi : nat) (c : ascii) : bool :=
  (lo <=? nat_of_ascii c)%nat && (nat_of_ascii c <=? hi)%nat.

Definition is_digit (c : ascii) : bool := between 48 57 c.
Definition is_lower (c : ascii) : bool := between 97 122 c.
Definition is_upper (c : ascii) : bool := between 65 90 c.

(** The text with the given bytes. *)
Fixpoint bytes (codes : list nat) : string :=
  match codes with
  | [] => EmptyString
  | n :: rest => String (ascii_of_nat n) (bytes rest)
  end.

Definition byte (c : ascii) : N := N_of_ascii c.

(** The six bits a continuation byte carries. *)
Definition continuation (c : ascii) : bool := between 128 191 c.

Definition low_bits (c : ascii) : N := (byte c - 128)%N.

(** The character at the start of [s], as its code point, with the
    number of bytes that encode it; [None] where no encoding starts. *)
Definition decode (s : string) : option (N * nat) :=
  match s with
  | EmptyString => None
  | String a r =>
      if between 0 127 a then Some (byte a, 1%nat)
      else if between 194 223 a then
        match r with
        | String b _ =>
            if continuation b
            then Some (((byte a - 192) * 64 + low_bits b)%N, 2%nat)
            else None
        | EmptyString => None
        end
      else if between 224 239 a then
        match r with
        | String b (String c _) =>
            if continuation b && continuation c
            then Some ((((byte a - 224) * 64 + low_bits b) * 64
                        + low_bits c)%N, 3%nat)
            else None
        | _ => None
        end
      else if between 240 244 a then
        match r with
        | String b (String c (String d _)) =>
            if continuation b && continuation c && continuation d
            then Some (((((byte a - 240) * 64 + low_bits b) * 64
                         + low_bits c) * 64 + low_bits d)%N, 4%nat)
            else None
        | _ => None
        end
      else None
  end.

Definition within (lo hi cp : N) : bool := ((lo <=? cp) && (cp <=? hi))%N.

(** [str.isspace] of a character: the ASCII white space, U+0085, U+00A0,
    U+1680, U+2000 to U+200A, U+2028, U+2029, U+202F, U+205F, U+3000. *)
Definition is_space (cp : N) : bool :=
  within 9 13 cp || within 28 32 cp || within 133 133 cp
  || within 160 160 cp || within 5760 5760 cp || within 8192 8202 cp
  || within 8232 8233 cp || within 8239 8239 cp || within 8287 8287 cp
  || within 12288 12288 cp.

(** The digit zero of every script that has decimal digits (general
    category Nd, Unicode 14); the other nine follow it. *)
Definition decimal_zeros : list N :=
  [ 48; 1632; 1776; 1984; 2406; 2534; 2662; 2790; 2918; 3046; 3174;
    3302; 3430; 3558; 3664; 3792; 3872; 4160; 4240; 6112; 6160; 6470;
    6608; 6784; 6800; 6992; 7088; 7232; 7248; 42528; 43216; 43264;
    43472; 43504; 43600; 44016; 65296; 66720; 68912; 69734; 69872;
    69942; 70096; 70384; 70736; 70864; 71248; 71360; 71472; 71904;
    72016; 72784; 73040; 73120; 92768; 92864; 93008; 120782; 120792;
    120802; 120812; 120822; 123200; 123632; 125264; 130032 ]%N.

(** What [\d] matches in a [str] pattern without [re.ASCII]. *)
Definition is_decimal (cp : N) : bool :=
  existsb (fun zero => within zero (zero + 9) cp) decimal_zeros.

(** The number of bytes of the white space, or of the decimal digit, at
    the start of [s]; 0 when there is none. *)
Definition space_width (s : string) : nat :=
  match decode s with
  | Some (cp, width) => if is_space cp then width else 0%nat
  | None => 0%nat
  end.

Definition decimal_width (s : string) : nat :=
  match decode s with
  | Some (cp, width) => if is_decimal cp then width else 0%nat
  | None => 0%nat
  end.

(** [str.isspace] on the ASCII range. *)
Definition isspace (c : ascii) : bool :=
  between 9 13 c || between 28 32 c.

Definition lower_char (c : ascii) : ascii :=
  if is_upper c then ascii_of_nat (nat_of_ascii c + 32) else c.

Fixpoint lower_ascii (s : string) : string :=
  match s with
  | EmptyString => EmptyString
  | String c s' => String (lower_char c) (lower_ascii s')
  end.

(** [str.lstrip]: white space is dropped character by character. *)
Fixpoint lstrip (s : string) : string :=
  match s with
  | EmptyString => EmptyString
  | String _ s1 =>
      match space_width s with
      | 1%nat => lstrip s1
      | 2%nat => match s1 with
                 | String _ s2 => lstrip s2
                 | EmptyString => s
                 end
      | 3%nat => match s1 with
                 | String _ (String _ s3) => lstrip s3
                 | _ => s
                 end
      | _ => s
      end
  end.

(** [str.rstrip]: the text is cut where nothing but white space is
    left. *)
Fixpoint rstrip (s : string) : string :=
  match s with
  | EmptyString => EmptyString
  | String c s' =>
      match lstrip s with
      | EmptyString => EmptyString
      | String _ _ => String c (rstrip s')
      end
  end.

(** [str.strip] *)
Definition strip (s : string) : string := rstrip (lstrip s).

(** [str.split(sep)] for a one-character separator: never empty. *)
Fixpoint split (sep : ascii) (s : string) : list string :=
  match s with
  | EmptyString => [EmptyString]
  | String c s' =>
      if Ascii.eqb c sep then EmptyString :: split sep s'
      else match split sep s' with
           | h :: t => String c h :: t
           | [] => [String c EmptyString]
           end
  end.

(** [str.split()] with no argument: the runs of non-blank characters. *)
Fixpoint words_from (cur s : string) : list string :=
  match s with
  | EmptyString => if truthy cur then [cur] else []
  | String c s' =>
      if isspace c
      then (if truthy cur then cur :: words_from EmptyString s'
            else words_from EmptyString s')
      else words_from (cur ++ String c EmptyString) s'
  end.

Definition words (s : string) : list string := words_from EmptyString s.

(** [xs[-1]]: [None] stands for [IndexError]. *)
Definition last_item {A} (xs : list A) : option A :=
  match List.rev xs with x :: _ => Some x | [] => None end.

(** [s[:n]] *)
Fixpoint slice_to (n : nat) (s : string) : string :=
  match n, s with
  | S n', String c s' => String c (slice_to n' s')
  | _, _ => EmptyString
  end.

(** [str.replace(old, new)] for a non-empty [old]: occurrences are found
    left to right and do not overlap.  [skip] counts the characters of a
    match that are still to be dropped. *)
Fixpoint replace_from (skip : nat) (old new s : string) : string :=
  match s with
  | EmptyString => EmptyString
  | String c s' =>
      match skip with
      | S k => replace_from k old new s'
      | O =>
          if String.prefix old s
          then new ++ replace_from (String.length old - 1) old new s'
          else String c (replace_from 0 old new s')
      end
  end.

Definition replace (old new s : string) : string := replace_from 0 old new s.

(** The Kelvin sign U+212A, whose lower case is [k], and the dotted
    capital I, U+0130, whose lower case is [i] followed by U+0307. *)
Definition kelvin_sign : string := bytes [226; 132; 170].
Definition dotted_capital_i : string := bytes [196; 176].
Definition dotted_small_i : string := "i" ++ bytes [204; 135].

(** [str.lower], as far as ASCII goes in or comes out: the ASCII capitals
    and the two letters above.  Every other character is left as it is;
    its lower case has no ASCII character either, so that the removal of
    all but [[a-z0-9-]], which is what the code does next, gives the
    same. *)
Definition lower (s : string) : string :=
  lower_ascii
    (replace dotted_capital_i dotted_small_i (replace kelvin_sign "k" s)).

(** [str.join] *)
Fixpoint join (sep : string) (xs : list string) : string :=
  match xs with
  | [] => EmptyString
  | [x] => x
  | x :: rest => x ++ sep ++ join sep rest
  end.

(** [repr] of a [str] without quotes, backslashes or control characters,
    and of a list of such. *)
Definition repr_str (s : string) : string := "'" ++ s ++ "'".

Definition repr_list (xs : list string) : string :=
  "[" ++ join ", " (map repr_str xs) ++ "]".

(** [str(n)] for a natural number and for an [int]. *)
Definition str_of_nat (n : nat) : string :=
  DecimalString.NilZero.string_of_uint (Nat.to_uint n).

Definition str_of_int (z : Z) : string :=
  if (z <? 0)%Z then "-" ++ str_of_nat (Z.abs_nat z)
  else str_of_nat (Z.to_nat z).

Definition digit_char (d : nat) : ascii := ascii_of_nat (48 + d mod 10).

(** Zero-padded fields of [strftime]. *)
Definition pad2 (n : nat) : string :=
  String (digit_char (n / 10)) (String (digit_char n) EmptyString).

Definition pad4 (n : nat) : string :=
  String (digit_char (n / 1000)) (String (digit_char (n / 100)) (pad2 n)).

(** [int(s)] on a sign followed by decimal digits; [None] stands for
    [ValueError]. *)
Fixpoint digits_value (acc : Z) (s : string) : option Z :=
  match s with
  | EmptyString => Some acc
  | String c s' =>
      if is_digit c
      then digits_value (10 * acc + Z.of_nat (nat_of_ascii c - 48)) s'
      else None
  end.

Definition int_of_string (s : string) : option Z :=
  match strip s with
  | EmptyString => None
  | String c s' =>
      if Ascii.eqb c "-"
      then (if truthy s' then option_map Z.opp (digits_value 0 s') else None)
      else if Ascii.eqb c "+"
      then (if truthy s' then digits_value 0 s' else None)
      else digits_value 0 (String c s')
  end.

(** The class [[a-z0-9-]] and [re.sub(r"[^a-z0-9-]", "", s)]. *)
Definition allowed (c : ascii) : bool :=
  is_lower c || is_digit c || Ascii.eqb c "-".

Fixpoint re_sub_disallowed (s : string) : string :=
  match s with
  | EmptyString => EmptyString
  | String c s' =>
      if allowed c then String c (re_sub_disallowed s')
      else re_sub_disallowed s'
  end.

(** [\d*] at the start of [s]: the longest run of decimal digits, each
    with all the bytes of its encoding. *)
Fixpoint leading_digits (s : string) : string :=
  match s with
  | EmptyString => EmptyString
  | String a s1 =>
      match decimal_width s with
      | 1%nat => String a (leading_digits s1)
      | 2%nat =>
          match s1 with
          | String b s2 => String a (String b (leading_digits s2))
          | EmptyString => EmptyString
          end
      | 3%nat =>
          match s1 with
          | String b (String c s3) =>
              String a (String b (String c (leading_digits s3)))
          | _ => EmptyString
          end
      | 4%nat =>
          match s1 with
          | String b (String c (String d s4)) =>
              String a (String b (String c (String d (leading_digits s4))))
          | _ => EmptyString
          end
      | _ => EmptyString
      end
  end.

(** [re.search(r"#(\d+)", s)], returning group 1 of the leftmost match. *)
Fixpoint re_search_issue (s : string) : option string :=
  match s with
  | EmptyString => None
  | String c s' =>
      if Ascii.eqb c "#" && truthy (leading_digits s')
      then Some (leading_digits s')
      else re_search_issue s'
  end.

(** Every character of [s] satisfies [p]. *)
Fixpoint all_chars (p : ascii -> bool) (s : string) : bool :=
  match s with
  | EmptyString => true
  | String c s' => p c && all_chars p s'
  end.

(** [sub in s] *)
Fixpoint contains (sub s : string) : bool :=
  String.prefix sub s ||
  match s with
  | EmptyString => false
  | String _ s' => contains sub s'
  end.

Definition newline : ascii := ascii_of_nat 10.

End Py.

(** ** The world the program runs in *)

Module Sys.

(** What the code can catch or let escape. *)
Inductive exn :=
| CalledProcessError (returncode : Z) (cmd : list string)
| ValueError (msg : string)
| TypeError (msg : string)
| SystemExit (code : Z).

Inductive Result (A : Type) :=
| Ok (a : A)
| Raise (e : exn).
Arguments Ok {A} a.
Arguments Raise {A} e.

(** [subprocess.CompletedProcess] *)
Record Completed := { returncode : Z; stdout : string }.

(** The fields of [datetime.now(UTC)] that [strftime] reads. *)
Record DateTime :=
  { year : nat; month : nat; day : nat;
    hour : nat; minute : nat; second : nat }.

(** [os.name] *)
Inductive OsName := posix | nt | other_os.

(** What the program does to the outside: processes run (with their
    working directory) and questions put to the user. *)
Inductive Event :=
| Ran (cmd : list string) (cwd : option string)
| Asked (text : string).

(** The surroundings, fixed during one invocation: how each process
    ends, what the clock shows at each reading, what the user answers to
    each question, which binaries are on the search path, the platform,
    the environment variables and the file-system functions of pathlib. *)
Record Env :=
  { spawn : list string -> option string -> Completed;
    clock : nat -> DateTime;
    answers : nat -> bool;
    which : string -> bool;
    os_name : OsName;
    environ : string -> option string;
    expanduser : string -> string;
    resolve : string -> string;
    xdg_data_home : string;
    getcwd : string }.

(** What changes as the program runs. *)
Record State := { log : list Event; ticks : nat }.

Definition M (A : Type) : Type := Env -> State -> Result A * State.

Definition ret {A} (a : A) : M A := fun _ s => (Ok a, s).

Definition bind {A B} (m : M A) (k : A -> M B) : M B :=
  fun e s =>
    match m e s with
    | (Ok a, s') => k a e s'
    | (Raise x, s') => (Raise x, s')
    end.

Definition raise {A} (x : exn) : M A := fun _ s => (Raise x, s).

Definition is_CalledProcessError (x : exn) : bool :=
  match x with CalledProcessError _ _ => true | _ => false end.

Definition is_ValueError (x : exn) : bool :=
  match x with ValueError _ => true | _ => false end.

(** [try: body  except <caught>: handler] *)
Definition try_except {A} (body : M A) (caught : exn -> bool)
    (handler : exn -> M A) : M A :=
  fun e s =>
    match body e s with
    | (Ok a, s') => (Ok a, s')
    | (Raise x, s') => if caught x then handler x e s' else (Raise x, s')
    end.

Definition is_asked (ev : Event) : bool :=
  match ev with Asked _ => true | Ran _ _ => false end.

(** Number of questions put to the user so far. *)
Definition prompts (s : State) : nat := List.length (filter is_asked (log s)).

Definition record (ev : Event) (s : State) : State :=
  {| log := log s ++ [ev]; ticks := ticks s |}.

(** [subprocess.run(cmd, capture_output=..., text=True, check=check, cwd=cwd)] *)
Definition subprocess_run (cmd : list string) (check : bool)
    (cwd : option string) : M Completed :=
  fun e s =>
    let r := spawn e cmd cwd in
    let s' := record (Ran cmd cwd) s in
    if check && negb (returncode r =? 0)%Z
    then (Raise (CalledProcessError (returncode r) cmd), s')
    else (Ok r, s').

(** [click.confirm(text)]: the next scripted answer. *)
Definition confirm (text : string) : M bool :=
  fun e s => (Ok (answers e (prompts s)), record (Asked text) s).

(** [datetime.now(UTC)] *)
Definition now : M DateTime :=
  fun e s => (Ok (clock e (ticks s)), {| log := log s; ticks := S (ticks s) |}).

Definition shutil_which (name : string) : M bool :=
  fun e s => (Ok (which e name), s).

Definition ask {A} (f : Env -> A) : M A := fun e s => (Ok (f e), s).

(** [strftime("%H%M%S")] and [strftime("%Y%m%d-%H%M%S")] *)
Definition strftime_HMS (d : DateTime) : string :=
  Py.pad2 (hour d) ++ Py.pad2 (minute d) ++ Py.pad2 (second d).

Definition strftime_Ymd_HMS (d : DateTime) : string :=
  Py.pad4 (year d) ++ Py.pad2 (month d) ++ Py.pad2 (day d) ++ "-"
  ++ strftime_HMS d.

End Sys.

Import Sys.

Declare Scope py_scope.
Delimit Scope py_scope with py.
Notation "x <- m ;; k" := (bind m (fun x => k))
  (at level 61, m at next level, right associativity) : py_scope.
Notation "m ;;; k" := (bind m (fun _ => k))
  (at level 61, right associativity) : py_scope.
Local Open Scope py_scope.

(** ** pathlib, as far as the code uses it

    A path is its text.  [joinpath] is the [/] operator: a relative right
    operand is appended to the left one, an absolute one takes its place.
    [path_name] is [Path.name]. *)

Module PathLib.

Definition is_absolute (p : string) : bool :=
  match p with
  | String c _ => Ascii.eqb c "/"
  | EmptyString => false
  end.

Definition joinpath (p c : string) : string :=
  if is_absolute c then c else p ++ "/" ++ c.

Definition is_component (c : string) : bool :=
  Py.truthy c && negb (String.eqb c ".").

Definition path_name (p : string) : string :=
  match Py.last_item (filter is_component (Py.split "/" p)) with
  | Some c => c
  | None => EmptyString
  end.

(** [Path.parent]: the path without its last component. *)
Definition parent (p : string) : string :=
  match List.rev (Py.split "/" p) with
  | _ :: (c :: cs) =>
      let q := Py.join "/" (List.rev (c :: cs)) in
      if Py.truthy q then q else "/"
  | _ => "."
  end.

End PathLib.

(** ** src/lets/cli.py *)

Module Cli.

(** [run_command]: the output is captured and stripped on demand; a
    non-zero exit raises only under [check]. *)
Definition run_command (cmd : list string) (capture_output check : bool)
    (cwd : option string) : M (option string) :=
  try_except
    (result <- subprocess_run cmd check cwd ;;
     if capture_output then ret (Some (Py.strip (stdout result)))
     else ret None)
    is_CalledProcessError
    (fun x => if check then raise x else ret None).

(** [run_command_with_spinner]: [run_command] under a status line. *)
Definition run_command_with_spinner (cmd : list string)
    (spinner_text : string) (capture_output check : bool)
    (cwd : option string) : M (option string) :=
  run_command cmd capture_output check cwd.

Definition get_git_info : M (string * string * string) :=
  repo_root <- try_except
      (run_command ["git"; "rev-parse"; "--show-toplevel"] true true None)
      is_CalledProcessError
      (fun _ => raise (SystemExit 1)) ;;
  match repo_root with
  | None => raise (SystemExit 1)
  | Some repo_root =>
      let repo_name := PathLib.path_name repo_root in
      current_branch <-
        run_command ["git"; "branch"; "--show-current"] true true None ;;
      match current_branch with
      | None => raise (SystemExit 1)
      | Some current_branch => ret (repo_root, repo_name, current_branch)
      end
  end.

Definition min_branch_length : nat := 3.

(** The clean-up of the AI tool's answer: last line, lower case, only
    [[a-z0-9-]], at most 50 characters. *)
Definition clean_output (result : string) : string :=
  let branch_name :=
    match Py.last_item (Py.split Py.newline (Py.strip result)) with
    | Some l => l
    | None => EmptyString
    end in
  let branch_name := Py.re_sub_disallowed (Py.lower branch_name) in
  Py.slice_to 50 branch_name.

Definition branch_prompt (task : string) : string :=
  "Based on this task, generate a short, descriptive git branch name "
  ++ "(lowercase, hyphen-separated, max 30 chars, no spaces or special chars "
  ++ "except hyphens). Only output the branch name, nothing else. Task: "
  ++ task.

(** [generate_branch_name]: [Some] from the guarded part is the early
    [return] inside the [try]. *)
Definition generate_branch_name (task ai_tool : string) (verbose : bool)
    : M string :=
  let prompt := branch_prompt task in
  early <- try_except
      (result <-
         (if verbose
          then run_command [ai_tool; "-p"; prompt] true false None
          else run_command_with_spinner [ai_tool; "-p"; prompt]
                 ("Asking " ++ ai_tool ++ " for branch name...")
                 true false None) ;;
       match result with
       | Some result =>
           if Py.truthy result
           then
             let branch_name := clean_output result in
             if (min_branch_length <=? String.length branch_name)%nat
             then ret (Some branch_name)
             else ret None
           else ret None
       | None => ret None
       end)
      is_CalledProcessError
      (fun _ => ret None) ;;
  match early with
  | Some branch_name => ret branch_name
  | None =>
      match Py.re_search_issue task with
      | Some digits => ret ("issue-" ++ digits)
      | None => d <- now ;; ret ("task-" ++ strftime_Ymd_HMS d)
      end
  end.

Definition get_worktree_base_dir (custom_dir : option string) : M string :=
  let from_environment : M string :=
    env_dir <- ask (fun e => environ e "LETS_WORKTREE_DIR") ;;
    match env_dir with
    | Some env_dir =>
        if Py.truthy env_dir
        then ask (fun e => resolve e (expanduser e env_dir))
        else ask (fun e => PathLib.joinpath
                    (PathLib.joinpath (xdg_data_home e) "lets") "worktrees")
    | None => ask (fun e => PathLib.joinpath
                    (PathLib.joinpath (xdg_data_home e) "lets") "worktrees")
    end in
  match custom_dir with
  | Some dir =>
      if Py.truthy dir
      then ask (fun e => resolve e (expanduser e dir))
      else from_environment
  | None => from_environment
  end.

Definition verify_cmd (ref : string) : list string :=
  ["git"; "rev-parse"; "--verify"; ref].

Definition branch_exists (branch_name : string) : M bool :=
  try_except
    (run_command (verify_cmd branch_name) true true None ;;; ret true)
    is_CalledProcessError
    (fun _ =>
       try_except
         (run_command (verify_cmd ("origin/" ++ branch_name)) true true None ;;;
          ret true)
         is_CalledProcessError
         (fun _ => ret false)).

(** The [for i in range(1, 100)] loop of [handle_branch_conflict]:
    [Some] is the [return] inside the loop. *)
Fixpoint try_numbers (base_name : string) (range : list nat)
    : M (option (string * bool)) :=
  match range with
  | [] => ret None
  | i :: rest =>
      let candidate := base_name ++ "-" ++ Py.str_of_nat i in
      taken <- branch_exists candidate ;;
      if negb taken then ret (Some (candidate, false))
      else try_numbers base_name rest
  end.

Definition handle_branch_conflict (base_name : string) : M (string * bool) :=
  taken <- branch_exists base_name ;;
  if negb taken then ret (base_name, false)
  else
    use_existing <- confirm "Use existing branch?" ;;
    if use_existing then ret (base_name, true)
    else
      d <- now ;;
      let timestamp := strftime_HMS d in
      let candidate := base_name ++ "-" ++ timestamp in
      taken <- branch_exists candidate ;;
      if negb taken then ret (candidate, false)
      else
        found <- try_numbers base_name (seq 1 99) ;;
        match found with
        | Some r => ret r
        | None =>
            d <- now ;;
            ret (base_name ++ "-" ++ strftime_Ymd_HMS d, false)
        end.

Definition create_worktree (worktree_path branch_name base_branch : string)
    (is_existing_branch : bool) : M bool :=
  try_except
    (run_command_with_spinner ["git"; "fetch"; "origin"]
       "Fetching latest changes..." true false None ;;;
     (if is_existing_branch
      then
        run_command_with_spinner
          ["git"; "worktree"; "add"; worktree_path; branch_name]
          ("Creating worktree from existing branch '" ++ branch_name ++ "'...")
          true true None ;;;
        ret tt
      else
        run_command_with_spinner
          ["git"; "worktree"; "add"; "-b"; branch_name; worktree_path;
           base_branch]
          ("Creating worktree with new branch '" ++ branch_name ++ "'...")
          true true None ;;;
        try_except
          (run_command_with_spinner
             ["git"; "push"; "--set-upstream"; "origin"; branch_name]
             ("Setting up upstream tracking for '" ++ branch_name ++ "'...")
             true false (Some worktree_path) ;;;
           ret tt)
          is_CalledProcessError
          (fun _ =>
             run_command_with_spinner
               ["git"; "branch"; "--set-upstream-to=origin/main"; branch_name]
               "Setting up local branch tracking..."
               true false (Some worktree_path) ;;;
             ret tt)) ;;;
     ret true)
    is_CalledProcessError
    (fun _ => ret false).

(** [setup_repository_info]: the branch is the [--branch] option when it
    is given and not empty, else a generated name; either goes through
    [handle_branch_conflict]. *)
Definition setup_repository_info (task : string) (branch : option string)
    (ai_tool : string) (verbose : bool)
    : M (string * string * string * string * bool) :=
  info <- get_git_info ;;
  let '(repo_root, repo_name, current_branch) := info in
  current_dir <- ask getcwd ;;
  branch_name <-
    match branch with
    | Some b =>
        if Py.truthy b then ret b
        else generate_branch_name task ai_tool verbose
    | None => generate_branch_name task ai_tool verbose
    end ;;
  resolved <- handle_branch_conflict branch_name ;;
  let '(branch_name, is_existing_branch) := resolved in
  ret (current_dir, repo_name, branch_name, current_branch, is_existing_branch).

(** The [for branch in [...]] loop of [get_base_branch]: [Some] is the
    [return] in the [else] of the [try]; [continue] is the next turn. *)
Fixpoint first_verified (branches : list string) : M (option string) :=
  match branches with
  | [] => ret None
  | branch :: rest =>
      try_except
        (run_command (verify_cmd branch) true true None ;;;
         ret (Some branch))
        is_CalledProcessError
        (fun _ => first_verified rest)
  end.

Definition get_base_branch (custom_base : option string) : M string :=
  custom <-
    match custom_base with
    | Some base =>
        if Py.truthy base
        then try_except
               (run_command (verify_cmd base) true true None ;;;
                ret (Some base))
               is_CalledProcessError
               (fun _ => ret None)
        else ret None
    | None => ret None
    end ;;
  match custom with
  | Some base => ret base
  | None =>
      found <- first_verified ["origin/main"; "origin/master"; "main"; "master"] ;;
      match found with
      | Some branch => ret branch
      | None => ret "HEAD"
      end
  end.

End Cli.

(** ** src/lets/config.py: the settings the launchers read *)

Record LetsSettings :=
  { launcher : string;
    ai_tool : string;
    editor_command : string;
    tmux_session : string;
    tmux_auto_attach : bool;
    terminal_command : string }.

(** ** src/lets/launchers/ *)

Module Launchers.

(** [base.run_command] is the same function as [cli.run_command]. *)
Definition run_command := Cli.run_command.

(** The two implementations of [WorkspaceLauncher]. *)
Inductive WorkspaceLauncher :=
| TmuxLauncher (settings : LetsSettings)
| TerminalLauncher (settings : LetsSettings).

(** A [dict] with [str] keys, in insertion order. *)
Fixpoint dict_get {V} (d : list (string * V)) (k : string) : option V :=
  match d with
  | [] => None
  | (k', v) :: rest => if String.eqb k k' then Some v else dict_get rest k
  end.

Definition dict_keys {V} (d : list (string * V)) : list string := map fst d.

Definition launchers : list (string * (LetsSettings -> WorkspaceLauncher)) :=
  [("tmux", TmuxLauncher); ("terminal", TerminalLauncher)].

Definition get_launcher (launcher_name : string) (settings : LetsSettings)
    : M WorkspaceLauncher :=
  match dict_get launchers launcher_name with
  | None =>
      let available_launchers := dict_keys launchers in
      let msg := "Unknown launcher: " ++ launcher_name ++ ". Available: "
                 ++ Py.repr_list available_launchers in
      raise (ValueError msg)
  | Some make => ret (make settings)
  end.

Definition tmux_is_available : M bool := shutil_which "tmux".

Definition terminal_is_available : M bool :=
  os <- ask os_name ;;
  match os with
  | posix =>
      has_open <- shutil_which "open" ;;
      if has_open then ret true
      else
        has_gnome <- shutil_which "gnome-terminal" ;;
        has_xterm <- (if has_gnome then ret true else shutil_which "xterm") ;;
        if has_xterm then ret true else ret false
  | nt => ret true
  | other_os => ret false
  end.

Definition is_available (l : WorkspaceLauncher) : M bool :=
  match l with
  | TmuxLauncher _ => tmux_is_available
  | TerminalLauncher _ => terminal_is_available
  end.

(** The loop of [get_available_launchers], appending to [available]. *)
Fixpoint collect_available (names : list string) (settings : LetsSettings)
    (available : list string) : M (list string) :=
  match names with
  | [] => ret available
  | name :: rest =>
      l <- get_launcher name settings ;;
      ok <- is_available l ;;
      collect_available rest settings
        (if ok then available ++ [name] else available)
  end.

Definition get_available_launchers (settings : LetsSettings)
    : M (list string) :=
  collect_available ["tmux"; "terminal"] settings [].

(** The loop of [get_best_available_launcher]: [Some] is the [return]
    inside the loop. *)
Fixpoint first_available (names : list string) (settings : LetsSettings)
    : M (option string) :=
  match names with
  | [] => ret None
  | launcher_name :: rest =>
      l <- get_launcher launcher_name settings ;;
      ok <- is_available l ;;
      if ok then ret (Some launcher_name)
      else first_available rest settings
  end.

Definition get_best_available_launcher (settings : LetsSettings)
    (project_path : string) : M string :=
  preferred <- try_except
      (l <- get_launcher (launcher settings) settings ;;
       ok <- is_available l ;;
       if ok then ret (Some (launcher settings)) else ret None)
      is_ValueError
      (fun _ => ret None) ;;
  match preferred with
  | Some name => ret name
  | None =>
      found <- first_available ["tmux"; "terminal"] settings ;;
      match found with
      | Some name => ret name
      | None => ret "terminal"
      end
  end.

(** *** tmux.py *)

Module Tmux.

Definition get_pane_base_index : M Z :=
  try_except
    (result <- run_command ["tmux"; "show-option"; "-g"; "pane-base-index"]
                 true true None ;;
     match result with
     | Some result =>
         if Py.truthy result
         then
           match Py.last_item (Py.words (Py.strip result)) with
           | Some w =>
               match Py.int_of_string w with
               | Some n => ret n
               | None => ret 0%Z
               end
           | None => ret 0%Z
           end
         else ret 0%Z
     | None => ret 0%Z
     end)
    is_CalledProcessError
    (fun _ => ret 0%Z).

Definition ai_cmd (ai_tool task : string) : string :=
  let escaped_task := Py.replace "'" "'\''" task in
  ai_tool ++ " --dangerously-skip-permissions '" ++ escaped_task ++ "'".

Definition editor_of (settings : LetsSettings) : M string :=
  if Py.truthy (editor_command settings) then ret (editor_command settings)
  else
    env_editor <- ask (fun e => environ e "EDITOR") ;;
    match env_editor with
    | Some ed => ret ed
    | None => ret "vim"
    end.

Definition setup_workspace (settings : LetsSettings)
    (worktree_path branch_name task ai_tool : string) : M bool :=
  available <- tmux_is_available ;;
  if negb available then ret false
  else
    let session := tmux_session settings in
    let window_name := branch_name in
    session_exists <- try_except
        (run_command ["tmux"; "has-session"; "-t"; session]
           true true None ;;;
         ret true)
        is_CalledProcessError
        (fun _ => ret false) ;;
    (if negb session_exists
     then run_command
            ["tmux"; "new-session"; "-d"; "-s"; session; "-n"; window_name;
             "-c"; worktree_path] false true None
     else run_command
            ["tmux"; "new-window"; "-t"; session ++ ":"; "-n"; window_name;
             "-c"; worktree_path] false true None) ;;;
    base_index <- get_pane_base_index ;;
    let left_pane := base_index in
    let right_pane := (base_index + 1)%Z in
    run_command
      ["tmux"; "split-window"; "-t"; session ++ ":" ++ window_name; "-h";
       "-c"; worktree_path] false true None ;;;
    editor <- editor_of settings ;;
    run_command
      ["tmux"; "send-keys"; "-t";
       session ++ ":" ++ window_name ++ "." ++ Py.str_of_int left_pane;
       editor; "Enter"] false true None ;;;
    run_command
      ["tmux"; "send-keys"; "-t";
       session ++ ":" ++ window_name ++ "." ++ Py.str_of_int right_pane;
       ai_cmd ai_tool task; "Enter"] false true None ;;;
    run_command
      ["tmux"; "select-pane"; "-t";
       session ++ ":" ++ window_name ++ "." ++ Py.str_of_int right_pane]
      false true None ;;;
    ret true.

(** [handle_attachment]: [located] gives the path under which
    [shutil.which] finds a binary that is on the search path. *)
Section Attachment.

Variable located : string -> string.

Definition handle_attachment (settings : LetsSettings)
    (worktree_path branch_name : string) : M unit :=
  if negb (tmux_auto_attach settings) then ret tt
  else
    let session := tmux_session settings in
    let window_name := branch_name in
    inside <- ask (fun e => environ e "TMUX") ;;
    if Py.truthy_opt inside
    then
      switch <- confirm "Switch to workspace window?" ;;
      if switch
      then
        found <- shutil_which "tmux" ;;
        if found
        then subprocess_run
               [located "tmux"; "switch-client"; "-t";
                session ++ ":" ++ window_name] false None ;;;
             ret tt
        else ret tt
      else ret tt
    else
      attach <- confirm "Attach to tmux session now?" ;;
      if attach
      then
        found <- shutil_which "tmux" ;;
        if found
        then subprocess_run
               [located "tmux"; "attach"; "-t"; session; ";"; "select-window";
                "-t"; window_name] false None ;;;
             ret tt
        else ret tt
      else ret tt.

End Attachment.

End Tmux.

(** *** terminal.py *)

Module Terminal.

Definition ai_cmd (ai_tool task : string) : string :=
  let escaped_task := Py.replace "'" "'\''" task in
  ai_tool ++ " --dangerously-skip-permissions '" ++ escaped_task ++ "'".

Definition dquote : string := String (ascii_of_nat 34) EmptyString.
Definition nl : string := String Py.newline EmptyString.
Definition indent16 : string := "                ".
Definition indent20 : string := "                    ".

Definition apple_script (worktree_path command : string) : string :=
  nl ++ indent16 ++ "tell application " ++ dquote ++ "Terminal" ++ dquote
  ++ nl ++ indent20 ++ "do script " ++ dquote ++ "cd '" ++ worktree_path
  ++ "' && " ++ command ++ dquote
  ++ nl ++ indent20 ++ "activate"
  ++ nl ++ indent16 ++ "end tell"
  ++ nl ++ indent16.

Definition _open_terminal_with_command (worktree_path command : string)
    : M unit :=
  os <- ask os_name ;;
  match os with
  | posix =>
      has_open <- shutil_which "open" ;;
      if has_open
      then run_command ["osascript"; "-e"; apple_script worktree_path command]
             false true None ;;; ret tt
      else
        has_gnome <- shutil_which "gnome-terminal" ;;
        if has_gnome
        then run_command
               ["gnome-terminal"; "--working-directory"; worktree_path; "--";
                "bash"; "-c"; command ++ "; exec bash"] false true None ;;;
             ret tt
        else
          has_xterm <- shutil_which "xterm" ;;
          if has_xterm
          then run_command
                 ["xterm"; "-e";
                  "cd '" ++ worktree_path ++ "' && " ++ command
                  ++ " && exec bash"] false true None ;;;
               ret tt
          else ret tt
  | nt =>
      has_wt <- shutil_which "wt" ;;
      if has_wt
      then run_command
             ["wt"; "new-tab"; "--startingDirectory"; worktree_path; "cmd";
              "/k"; command] false true None ;;;
           ret tt
      else
        (* [run_command] takes no [shell] argument *)
        raise (TypeError
                 "run_command() got an unexpected keyword argument 'shell'")
  | other_os => ret tt
  end.

(** The [for cmd in [...]] search of [_open_editor]. *)
Fixpoint detect_editor (cmds : list string) : M string :=
  match cmds with
  | [] => ret EmptyString
  | cmd :: rest =>
      found <- shutil_which cmd ;;
      if found then ret cmd else detect_editor rest
  end.

Definition _open_editor (settings : LetsSettings) (worktree_path : string)
    : M unit :=
  editor_cmd <-
    (if negb (Py.truthy (editor_command settings))
     then detect_editor ["code"; "cursor"; "subl"; "atom"]
     else ret (editor_command settings)) ;;
  if Py.truthy editor_cmd
  then
    try_except
      (run_command [editor_cmd; worktree_path] false false None ;;; ret tt)
      is_CalledProcessError
      (fun _ => ret tt)
  else ret tt.

Definition setup_workspace (settings : LetsSettings)
    (worktree_path branch_name task ai_tool : string) : M bool :=
  available <- terminal_is_available ;;
  if negb available then ret false
  else
    let cmd := ai_cmd ai_tool task in
    try_except
      (_open_terminal_with_command worktree_path cmd ;;;
       _open_editor settings worktree_path ;;;
       ret true)
      is_CalledProcessError
      (fun _ => ret false).

(** [handle_attachment]: nothing to do. *)
Definition handle_attachment (settings : LetsSettings)
    (worktree_path branch_name : string) : M unit :=
  ret tt.

End Terminal.

Definition setup_workspace (l : WorkspaceLauncher)
    (worktree_path branch_name task ai_tool : string) : M bool :=
  match l with
  | TmuxLauncher settings =>
      Tmux.setup_workspace settings worktree_path branch_name task ai_tool
  | TerminalLauncher settings =>
      Terminal.setup_workspace settings worktree_path branch_name task ai_tool
  end.

Definition handle_attachment (located : string -> string)
    (l : WorkspaceLauncher) (worktree_path branch_name : string) : M unit :=
  match l with
  | TmuxLauncher settings =>
      Tmux.handle_attachment located settings worktree_path branch_name
  | TerminalLauncher settings =>
      Terminal.handle_attachment settings worktree_path branch_name
  end.

End Launchers.

(** ** src/lets/cli.py: the functions that drive a launcher

    [LetsSettings.load()] reads the configuration file; what it returns is
    the argument [loaded]. *)

Module CliLaunch.

Definition with_session (settings : LetsSettings) (session : string)
    : LetsSettings :=
  {| launcher := launcher settings;
     ai_tool := ai_tool settings;
     editor_command := editor_command settings;
     tmux_session := session;
     tmux_auto_attach := tmux_auto_attach settings;
     terminal_command := terminal_command settings |}.

(** [setup_tmux], kept by the code for compatibility. *)
Definition setup_tmux (loaded : LetsSettings)
    (session window_name worktree_path task ai_tool : string) : M bool :=
  let settings := with_session loaded session in
  Launchers.setup_workspace (Launchers.TmuxLauncher settings)
    worktree_path window_name task ai_tool.

Definition handle_launcher_attachment (located : string -> string)
    (loaded : LetsSettings)
    (launcher_name worktree_path branch_name session : string) : M unit :=
  let settings := with_session loaded session in
  l <- Launchers.get_launcher launcher_name settings ;;
  Launchers.handle_attachment located l worktree_path branch_name.

End CliLaunch.

(** ** src/lets/cli.py: the functions that touch the file system

    The file operations are kept in a list of their own, handed from call
    to call; they are taken to succeed.  Whether a path exists is a
    matter of the host: [present] answers it from the processes run and
    the file operations done so far. *)

Module CliWorktree.

Inductive FsOp :=
| Mkdir (path : string)
| Rmtree (path : string)
| Copy2 (source dest : string).

Module WorktreeConfig.

Record t :=
  { current_dir : string;
    repo_name : string;
    branch_name : string;
    is_existing_branch : bool;
    base_branch : option string;
    force : bool;
    copy_env : bool;
    env_files : list string;
    session : string;
    task : string;
    ai_tool : string;
    worktree_dir : option string;
    launcher : string;
    attach : bool }.

End WorktreeConfig.

Definition remove_cmd (worktree_path : string) : list string :=
  ["git"; "worktree"; "remove"; "--force"; worktree_path].

Section Disk.

Variable present : list Event -> list FsOp -> string -> bool.

(** [Path.exists] *)
Definition path_exists (path : string) (ops : list FsOp) : M bool :=
  fun e s => (Ok (present (log s) ops path), s).

Fixpoint copy_env_files (source_dir dest_dir : string)
    (env_files : list string) (ops : list FsOp) : M (list FsOp) :=
  match env_files with
  | [] => ret ops
  | env_file :: rest =>
      let source_file := PathLib.joinpath source_dir env_file in
      there <- path_exists source_file ops ;;
      if there
      then
        let dest_file := PathLib.joinpath dest_dir env_file in
        copy_env_files source_dir dest_dir rest
          (ops ++ [Copy2 source_file dest_file])%list
      else copy_env_files source_dir dest_dir rest ops
  end.

Definition handle_existing_worktree (worktree_path : string) (force : bool)
    (branch_name base_dir repo_name : string) (ops : list FsOp)
    : M (string * string * list FsOp) :=
  if force
  then
    Cli.run_command_with_spinner (remove_cmd worktree_path)
      "Removing existing worktree..." true false None ;;;
    there <- path_exists worktree_path ops ;;
    if there then ret (worktree_path, branch_name, (ops ++ [Rmtree worktree_path])%list)
    else ret (worktree_path, branch_name, ops)
  else
    remove <- confirm "Remove existing directory and continue?" ;;
    if remove
    then
      Cli.run_command_with_spinner (remove_cmd worktree_path)
        "Removing existing worktree..." true false None ;;;
      there <- path_exists worktree_path ops ;;
      if there
      then ret (worktree_path, branch_name, (ops ++ [Rmtree worktree_path])%list)
      else ret (worktree_path, branch_name, ops)
    else
      d <- now ;;
      let branch_name := branch_name ++ "-" ++ strftime_HMS d in
      let worktree_path :=
        PathLib.joinpath (PathLib.joinpath base_dir repo_name) branch_name in
      ret (worktree_path, branch_name, ops).

(** [LetsSettings.load()] gives [loaded]. *)
Variable loaded : LetsSettings.

Definition with_session_attach (settings : LetsSettings) (session : string)
    (attach : bool) : LetsSettings :=
  {| launcher := launcher settings;
     ai_tool := ai_tool settings;
     editor_command := editor_command settings;
     tmux_session := session;
     tmux_auto_attach := attach;
     terminal_command := terminal_command settings |}.

Definition setup_worktree_and_launcher (config : WorktreeConfig.t)
    (ops : list FsOp) : M (string * string * list FsOp) :=
  base_dir <- Cli.get_worktree_base_dir (WorktreeConfig.worktree_dir config) ;;
  let worktree_path :=
    PathLib.joinpath
      (PathLib.joinpath base_dir (WorktreeConfig.repo_name config))
      (WorktreeConfig.branch_name config) in
  let branch_name := WorktreeConfig.branch_name config in
  let ops := (ops ++ [Mkdir (PathLib.parent worktree_path)])%list in
  there <- path_exists worktree_path ops ;;
  handled <-
    (if there
     then handle_existing_worktree worktree_path (WorktreeConfig.force config)
            branch_name base_dir (WorktreeConfig.repo_name config) ops
     else ret (worktree_path, branch_name, ops)) ;;
  let '(worktree_path, branch_name, ops) := handled in
  base_branch <- Cli.get_base_branch (WorktreeConfig.base_branch config) ;;
  created <- Cli.create_worktree worktree_path branch_name base_branch
               (WorktreeConfig.is_existing_branch config) ;;
  if negb created then raise (SystemExit 1)
  else
    ops <- (if WorktreeConfig.copy_env config
            then copy_env_files (WorktreeConfig.current_dir config)
                   worktree_path (WorktreeConfig.env_files config) ops
            else ret ops) ;;
    let settings :=
      if String.eqb (WorktreeConfig.launcher config) "tmux"
      then with_session_attach loaded (WorktreeConfig.session config)
             (WorktreeConfig.attach config)
      else loaded in
    l <- Launchers.get_launcher (WorktreeConfig.launcher config) settings ;;
    Launchers.setup_workspace l worktree_path branch_name
      (WorktreeConfig.task config) (WorktreeConfig.ai_tool config) ;;;
    ret (worktree_path, branch_name, ops).

End Disk.

End CliWorktree.

(** ** What the claims speak of, read off pure data *)

Module Spec.

(** [git rev-parse --verify ref] exits with status 0. *)
Definition verifies (e : Env) (ref : string) : bool :=
  (returncode (spawn e (Cli.verify_cmd ref) None) =? 0)%Z.

(** The existence probe: the local ref, else [origin/<name>]. *)
Definition exists_branch (e : Env) (name : string) : bool :=
  verifies e name || verifies e ("origin/" ++ name).

(** The processes one probe runs. *)
Definition probe_events (e : Env) (name : string) : list Event :=
  Ran (Cli.verify_cmd name) None ::
  (if verifies e name then []
   else [Ran (Cli.verify_cmd ("origin/" ++ name)) None]).

Definition numbered (base_name : string) (i : nat) : string :=
  base_name ++ "-" ++ Py.str_of_nat i.

(** The candidates that are probed, in order: the time-of-day suffix,
    then the suffixes 1 to 99. *)
Definition candidates (base_name : string) (d : DateTime) : list string :=
  (base_name ++ "-" ++ strftime_HMS d) :: map (numbered base_name) (seq 1 99).

(** The first candidate the probe reports as not existing. *)
Fixpoint first_free (e : Env) (cs : list string) : option string :=
  match cs with
  | [] => None
  | c :: rest => if exists_branch e c then first_free e rest else Some c
  end.

(** The candidates probed before the search stops: all up to and
    including the first free one. *)
Fixpoint probed (e : Env) (cs : list string) : list string :=
  match cs with
  | [] => []
  | c :: rest => c :: (if exists_branch e c then probed e rest else [])
  end.

(** The name [handle_branch_conflict] is to return once reuse is declined. *)
Definition fresh_name (e : Env) (base_name : string) (t : nat) : string :=
  match first_free e (candidates base_name (clock e t)) with
  | Some c => c
  | None => base_name ++ "-" ++ strftime_Ymd_HMS (clock e (S t))
  end.

(** The escaping of a task as the specification words it: every single
    quote becomes the four characters quote, backslash, quote, quote. *)
Fixpoint escaped (task : string) : string :=
  match task with
  | EmptyString => EmptyString
  | String c rest =>
      if Ascii.eqb c "'" then "'\''" ++ escaped rest
      else String c (escaped rest)
  end.

Definition invocation (ai_tool task : string) : string :=
  ai_tool ++ " --dangerously-skip-permissions '" ++ escaped task ++ "'".

(** The invariant of a resolved branch name as the specification words
    it: not empty, at most 50 characters, only [[a-z0-9-]]. *)
Definition valid_name (name : string) : bool :=
  Py.truthy name && (String.length name <=? 50)%nat
  && Py.all_chars Py.allowed name.

(** The clean-up of the AI tool's answer as the claim words it: lower
    case, only [[a-z0-9-]], at most 50 characters. *)
Definition cleaned (output : string) : string :=
  Py.slice_to 50 (Py.re_sub_disallowed (Py.lower output)).

(** The launcher [get_best_available_launcher] is to return, given which
    registered launchers are available. *)
Definition registered (name : string) : bool :=
  String.eqb name "tmux" || String.eqb name "terminal".

Definition tmux_available (e : Env) : bool := which e "tmux".

Definition terminal_available (e : Env) : bool :=
  match os_name e with
  | posix => which e "open" || which e "gnome-terminal" || which e "xterm"
  | nt => true
  | other_os => false
  end.

Definition available (e : Env) (name : string) : bool :=
  if String.eqb name "tmux" then tmux_available e
  else if String.eqb name "terminal" then terminal_available e
  else false.

Definition best (e : Env) (preferred : string) : string :=
  if registered preferred && available e preferred then preferred
  else match find (available e) ["tmux"; "terminal"] with
       | Some name => name
       | None => "terminal"
       end.

Definition default_base_dir (e : Env) : string :=
  PathLib.joinpath (PathLib.joinpath (xdg_data_home e) "lets") "worktrees".

(** The last line of the stripped answer. *)
Definition last_line (answer : string) : string :=
  match Py.last_item (Py.split Py.newline (Py.strip answer)) with
  | Some l => l
  | None => EmptyString
  end.

(** What the AI tool prints when asked to name a branch for [task]. *)
Definition ai_answer (e : Env) (tool task : string) : string :=
  stdout (spawn e [tool; "-p"; Cli.branch_prompt task] None).

(** The name [generate_branch_name] makes of that answer. *)
Definition ai_name (e : Env) (tool task : string) : string :=
  Cli.clean_output (Py.strip (ai_answer e tool task)).

(** A suffix appended by conflict resolution: 1 to 15 characters, all
    digits or hyphens. *)
Definition digit_or_hyphen (c : ascii) : bool :=
  Py.is_digit c || Ascii.eqb c "-".

Definition suffix_ok (suffix : string) : bool :=
  Py.all_chars digit_or_hyphen suffix
  && (1 <=? String.length suffix)%nat && (String.length suffix <=? 15)%nat.

End Spec.

(** ** Concrete worlds, for running the code *)

Module World.

Fixpoint cmd_eqb (a b : list string) : bool :=
  match a, b with
  | [], [] => true
  | x :: a', y :: b' => String.eqb x y && cmd_eqb a' b'
  | _, _ => false
  end.

Definition done (code : Z) (out : string) : Completed :=
  {| returncode := code; stdout := out |}.

(** Processes that end as the table says; any other one exits with
    [default]. *)
Fixpoint outcome (table : list (list string * Completed))
    (default : Completed) (cmd : list string) : Completed :=
  match table with
  | [] => default
  | (c, r) :: rest => if cmd_eqb cmd c then r else outcome rest default cmd
  end.

Definition half_past_three : DateTime :=
  {| year := 2025; month := 6; day := 14;
     hour := 15; minute := 30; second := 0 |}.

Definition initial : State := {| log := []; ticks := 0 |}.

Fixpoint lookup (vars : list (string * string)) (k : string) : option string :=
  match vars with
  | [] => None
  | (k', v) :: rest => if String.eqb k k' then Some v else lookup rest k
  end.

(** A machine with the given platform, environment variables, processes
    and binaries, a clock stopped at 15:30:00 and a user who declines
    every question. *)
Definition machine (os : OsName) (vars : list (string * string))
    (table : list (list string * Completed)) (default : Completed)
    (binaries : list string) : Env :=
  {| spawn := fun cmd _ => outcome table default cmd;
     clock := fun _ => half_past_three;
     answers := fun _ => false;
     which := fun name => existsb (String.eqb name) binaries;
     os_name := os;
     environ := lookup vars;
     expanduser := fun p => p;
     resolve := fun p => p;
     xdg_data_home := "/home/dev/.local/share";
     getcwd := "/home/dev/project" |}.

(** A POSIX host without environment variables. *)
Definition host (table : list (list string * Completed))
    (default : Completed) (binaries : list string) : Env :=
  machine posix [] table default binaries.

(** A repository in which the branches [feature] and [feature-153000]
    exist and nothing else verifies. *)
Definition feature_repo : Env :=
  host [ (Cli.verify_cmd "feature", done 0 "abc123");
         (Cli.verify_cmd "feature-153000", done 0 "def456") ]
       (done 1 EmptyString) [].

(** A repository with no branch at all, on a host with no binaries. *)
Definition empty_repo : Env := host [] (done 1 EmptyString) [].

(** The same with [LETS_WORKTREE_DIR] set. *)
Definition configured_repo : Env :=
  machine posix [("LETS_WORKTREE_DIR", "/srv/worktrees")] []
    (done 1 EmptyString) [].

Definition dev_settings : LetsSettings :=
  {| launcher := "tmux"; ai_tool := "claude"; editor_command := EmptyString;
     tmux_session := "dev"; tmux_auto_attach := true;
     terminal_command := EmptyString |}.

(** A host where [tmux] is installed but every process exits with
    status 1: no tmux server can be reached. *)
Definition broken_tmux : Env := host [] (done 1 EmptyString) ["tmux"].

(** A host where [tmux] is installed and every process succeeds. *)
Definition working_tmux : Env := host [] (done 0 EmptyString) ["tmux"].

(** A macOS-like host where [osascript] fails. *)
Definition broken_terminal : Env :=
  host [] (done 1 EmptyString) ["open"; "osascript"].

(** A repository where everything succeeds except the push of
    [fix-bug], which exits with status 128 (there is no remote). *)
Definition no_remote : Env :=
  host [ (["git"; "push"; "--set-upstream"; "origin"; "fix-bug"],
          done 128 EmptyString) ]
       (done 0 EmptyString) [].

Definition login_task : string := "Repair the login form".

(** An AI tool that answers in two lines. *)
Definition two_line_answer : string :=
  "Branch name:" ++ String Py.newline "fix-login".

Definition chatty_ai : Env :=
  host [ (["claude"; "-p"; Cli.branch_prompt login_task],
          done 0 two_line_answer) ]
       (done 1 EmptyString) ["claude"].

(** A repository at [/home/dev/project] on branch [main], where no
    other process succeeds. *)
Definition plain_repo : Env :=
  host [ (["git"; "rev-parse"; "--show-toplevel"], done 0 "/home/dev/project");
         (["git"; "branch"; "--show-current"], done 0 "main") ]
       (done 1 EmptyString) [].

(** The same repository, where the branch [Feature/X] exists. *)
Definition taken_repo : Env :=
  host [ (["git"; "rev-parse"; "--show-toplevel"], done 0 "/home/dev/project");
         (["git"; "branch"; "--show-current"], done 0 "main");
         (Cli.verify_cmd "Feature/X", done 0 "abc123") ]
       (done 1 EmptyString) [].

(** A task that names its issue in Arabic-Indic digits: [#] and U+0663. *)
Definition arabic_task : string := "Fix #" ++ Py.bytes [217; 163].

(** The same repository, with an AI tool that answers in two lines. *)
Definition helpful_repo : Env :=
  host [ (["git"; "rev-parse"; "--show-toplevel"], done 0 "/home/dev/project");
         (["git"; "branch"; "--show-current"], done 0 "main");
         (["claude"; "-p"; Cli.branch_prompt login_task],
          done 0 two_line_answer) ]
       (done 1 EmptyString) ["claude"].

Definition fifty : string :=
  "aaaaaaaaaabbbbbbbbbbccccccccccddddddddddeeeeeeeeee".

(** The same repository, where the AI tool answers with a name of 50
    characters that is already a branch. *)
Definition crowded_repo : Env :=
  host [ (["git"; "rev-parse"; "--show-toplevel"], done 0 "/home/dev/project");
         (["git"; "branch"; "--show-current"], done 0 "main");
         (["claude"; "-p"; Cli.branch_prompt login_task], done 0 fifty);
         (Cli.verify_cmd fifty, done 0 "abc123") ]
       (done 1 EmptyString) ["claude"].

(** The same machine with a user who agrees to every question. *)
Definition agreeing (e : Env) : Env :=
  {| spawn := spawn e;
     clock := clock e;
     answers := fun _ => true;
     which := which e;
     os_name := os_name e;
     environ := environ e;
     expanduser := expanduser e;
     resolve := resolve e;
     xdg_data_home := xdg_data_home e;
     getcwd := getcwd e |}.

(** A repository whose only branches are [main] and [release]. *)
Definition main_repo : Env :=
  host [ (Cli.verify_cmd "main", done 0 "abc123");
         (Cli.verify_cmd "release", done 0 "def456") ]
       (done 1 EmptyString) [].

(** An AI tool that prints the same two lines but exits with status 2. *)
Definition failing_ai : Env :=
  host [ (["claude"; "-p"; Cli.branch_prompt login_task],
          done 2 two_line_answer) ]
       (done 1 EmptyString) ["claude"].

(** A host whose tmux counts panes from 1 and where every process
    succeeds. *)
Definition one_based_tmux : Env :=
  host [ (["tmux"; "show-option"; "-g"; "pane-base-index"],
          done 0 ("pane-base-index 1" ++ String Py.newline EmptyString)) ]
       (done 0 EmptyString) ["tmux"].


(** A host inside a tmux session, with tmux installed. *)
Definition inside_tmux : Env :=
  machine posix [("TMUX", "/tmp/tmux-1000/default,2101,0")] []
    (done 0 EmptyString) ["tmux"].

(** Where binaries are found. *)
Definition usr_bin (name : string) : string := "/usr/bin/" ++ name.

Definition quiet_settings : LetsSettings :=
  {| launcher := "tmux"; ai_tool := "claude"; editor_command := EmptyString;
     tmux_session := "dev"; tmux_auto_attach := false;
     terminal_command := EmptyString |}.

(** A disk on which a path exists until it is removed by hand; what
    git does to it is ignored. *)
Definition sticky_disk (paths : list string) (_ : list Event)
    (ops : list CliWorktree.FsOp) (path : string) : bool :=
  existsb (String.eqb path) paths.

Definition fix_bug_config : CliWorktree.WorktreeConfig.t :=
  {| CliWorktree.WorktreeConfig.current_dir := "/home/dev/project";
     CliWorktree.WorktreeConfig.repo_name := "project";
     CliWorktree.WorktreeConfig.branch_name := "fix-bug";
     CliWorktree.WorktreeConfig.is_existing_branch := false;
     CliWorktree.WorktreeConfig.base_branch := None;
     CliWorktree.WorktreeConfig.force := false;
     CliWorktree.WorktreeConfig.copy_env := true;
     CliWorktree.WorktreeConfig.env_files := [".env"; ".env.local"];
     CliWorktree.WorktreeConfig.session := "dev";
     CliWorktree.WorktreeConfig.task := "Fix the bug";
     CliWorktree.WorktreeConfig.ai_tool := "claude";
     CliWorktree.WorktreeConfig.worktree_dir := Some "/srv/wt";
     CliWorktree.WorktreeConfig.launcher := "terminal";
     CliWorktree.WorktreeConfig.attach := true |}.

(** Settings that name the editor. *)
Definition code_settings : LetsSettings :=
  {| launcher := "terminal"; ai_tool := "claude"; editor_command := "code";
     tmux_session := "dev"; tmux_auto_attach := false;
     terminal_command := EmptyString |}.

(** A Linux desktop with [xterm] and that editor, and a Windows machine
    with Windows Terminal and that editor; every process succeeds. *)
Definition linux_desktop : Env :=
  host [] (done 0 EmptyString) ["xterm"; "code"].


(** A macOS-like host where every process succeeds. *)
Definition working_terminal : Env :=
  host [] (done 0 EmptyString) ["open"; "osascript"].

End World.

(** ** Vocabulary for the statements *)

(** The state after the events [evs]. *)
Definition logged (s : State) (evs : list Event) : State :=
  {| log := log s ++ evs; ticks := ticks s |}.

(** The git commands of [create_worktree] for a new branch. *)
Definition fetch_cmd : list string := ["git"; "fetch"; "origin"].

Definition add_new_cmd (worktree_path branch_name base_branch : string)
    : list string :=
  ["git"; "worktree"; "add"; "-b"; branch_name; worktree_path; base_branch].

Definition push_cmd (branch_name : string) : list string :=
  ["git"; "push"; "--set-upstream"; "origin"; branch_name].

Definition track_cmd (branch_name : string) : list string :=
  ["git"; "branch"; "--set-upstream-to=origin/main"; branch_name].

(** The first two tmux commands of [TmuxLauncher.setup_workspace]. *)
Definition has_session_cmd (session : string) : list string :=
  ["tmux"; "has-session"; "-t"; session].

Definition new_session_cmd (session window_name worktree_path : string)
    : list string :=
  ["tmux"; "new-session"; "-d"; "-s"; session; "-n"; window_name; "-c";
   worktree_path].

Definition pane_index_cmd : list string :=
  ["tmux"; "show-option"; "-g"; "pane-base-index"].

(** The result is a raised exception. *)
Definition raises {A} (r : Result A) : bool :=
  match r with Raise _ => true | Ok _ => false end.

(** The exit status of a process. *)
Definition status (e : Env) (cmd : list string) (cwd : option string) : Z :=
  returncode (spawn e cmd cwd).

(** A computation only adds events to the end of the log, and each of
    them satisfies [P]. *)
Definition appends {A} (P : Event -> Prop) (m : M A) : Prop :=
  forall e s, exists evs,
    log (snd (m e s)) = (log s ++ evs)%list /\ Forall P evs.

(** A computation does not read the clock. *)
Definition keeps_clock {A} (m : M A) : Prop :=
  forall e s, ticks (snd (m e s)) = ticks s.

(** The event is one [git rev-parse --verify] query. *)
Definition is_probe (ev : Event) : Prop :=
  exists ref, ev = Ran (Cli.verify_cmd ref) None.

Definition conflict_question : Event := Asked "Use existing branch?".

(** The two git queries of [get_git_info]. *)
Definition toplevel_cmd : list string := ["git"; "rev-parse"; "--show-toplevel"].

Definition current_branch_cmd : list string := ["git"; "branch"; "--show-current"].

(** The git command of [create_worktree] for an existing branch. *)
Definition add_existing_cmd (worktree_path branch_name : string)
    : list string :=
  ["git"; "worktree"; "add"; worktree_path; branch_name].

(** The base branches [get_base_branch] tries when no usable one is given. *)
Definition default_bases : list string :=
  ["origin/main"; "origin/master"; "main"; "master"].

(** The branches [get_base_branch] verifies from a list before it stops:
    all up to and including the first that verifies. *)
Fixpoint verified_upto (e : Env) (branches : list string) : list string :=
  match branches with
  | [] => []
  | b :: rest => b :: (if Spec.verifies e b then [] else verified_upto e rest)
  end.

(** The command the AI tool is asked with. *)
Definition ai_query (tool task : string) : list string :=
  [tool; "-p"; Cli.branch_prompt task].

(** The base branch [get_base_branch] falls back to. *)
Definition default_base (e : Env) : string :=
  match find (Spec.verifies e) default_bases with
  | Some branch => branch
  | None => "HEAD"
  end.

(** The event belongs to the resolution of a branch name from an explicit
    [--branch]: a query of [get_git_info], an existence probe or the
    question about reuse. *)
Definition is_resolution (ev : Event) : Prop :=
  ev = Ran toplevel_cmd None \/ ev = Ran current_branch_cmd None
  \/ is_probe ev \/ ev = conflict_question.

(** One query per branch. *)
Definition probes_of (branches : list string) : list Event :=
  map (fun b => Ran (Cli.verify_cmd b) None) branches.

(** The other tmux commands of [TmuxLauncher.setup_workspace]. *)
Definition new_window_cmd (session window_name worktree_path : string)
    : list string :=
  ["tmux"; "new-window"; "-t"; session ++ ":"; "-n"; window_name; "-c";
   worktree_path].

Definition split_window_cmd (session window_name worktree_path : string)
    : list string :=
  ["tmux"; "split-window"; "-t"; session ++ ":" ++ window_name; "-h"; "-c";
   worktree_path].

Definition pane_target (session window_name : string) (index : Z) : string :=
  session ++ ":" ++ window_name ++ "." ++ Py.str_of_int index.

Definition send_keys_cmd (target keys : string) : list string :=
  ["tmux"; "send-keys"; "-t"; target; keys; "Enter"].

Definition select_pane_cmd (target : string) : list string :=
  ["tmux"; "select-pane"; "-t"; target].

(** The pane base index [get_pane_base_index] reads off the host. *)
Definition pane_base (e : Env) : Z :=
  if (status e pane_index_cmd None =? 0)%Z
  then
    let result := Py.strip (stdout (spawn e pane_index_cmd None)) in
    if Py.truthy result
    then match Py.last_item (Py.words (Py.strip result)) with
         | Some w => match Py.int_of_string w with
                     | Some n => n
                     | None => 0%Z
                     end
         | None => 0%Z
         end
    else 0%Z
  else 0%Z.

(** The editor the tmux launcher starts. *)
Definition editor_for (settings : LetsSettings) (e : Env) : string :=
  if Py.truthy (editor_command settings) then editor_command settings
  else match environ e "EDITOR" with
       | Some ed => ed
       | None => "vim"
       end.

(** The steps of the tmux set-up whose failure is not caught, in order. *)
Definition tmux_steps (settings : LetsSettings)
    (worktree_path branch_name task tool : string) (e : Env)
    : list (list string) :=
  let session := tmux_session settings in
  let left := pane_target session branch_name (pane_base e) in
  let right := pane_target session branch_name (pane_base e + 1) in
  [ if (status e (has_session_cmd session) None =? 0)%Z
    then new_window_cmd session branch_name worktree_path
    else new_session_cmd session branch_name worktree_path;
    split_window_cmd session branch_name worktree_path;
    send_keys_cmd left (editor_for settings e);
    send_keys_cmd right (Launchers.Tmux.ai_cmd tool task);
    select_pane_cmd right ].

(** The first of a list of commands that exits with a non-zero status. *)
Definition first_failure (e : Env) (cmds : list (list string))
    : option (list string) :=
  find (fun cmd => negb (status e cmd None =? 0)%Z) cmds.

(** The command with which the terminal launcher opens a terminal on the
    host, if it has one. *)
Definition terminal_cmd (e : Env) (worktree_path command : string)
    : option (list string) :=
  match os_name e with
  | posix =>
      if which e "open"
      then Some ["osascript"; "-e";
                 Launchers.Terminal.apple_script worktree_path command]
      else if which e "gnome-terminal"
      then Some ["gnome-terminal"; "--working-directory"; worktree_path; "--";
                 "bash"; "-c"; command ++ "; exec bash"]
      else if which e "xterm"
      then Some ["xterm"; "-e";
                 "cd '" ++ worktree_path ++ "' && " ++ command
                 ++ " && exec bash"]
      else None
  | nt =>
      if which e "wt"
      then Some ["wt"; "new-tab"; "--startingDirectory"; worktree_path; "cmd";
                 "/k"; command]
      else None
  | other_os => None
  end.

(** The editor the terminal launcher opens: the configured one, else the
    first of the known editors on the search path, else none. *)
Definition chosen_editor (settings : LetsSettings) (e : Env) : string :=
  if Py.truthy (editor_command settings) then editor_command settings
  else match find (which e) ["code"; "cursor"; "subl"; "atom"] with
       | Some cmd => cmd
       | None => EmptyString
       end.

Definition editor_events (settings : LetsSettings) (e : Env)
    (worktree_path : string) : list Event :=
  if Py.truthy (chosen_editor settings e)
  then [Ran [chosen_editor settings e; worktree_path] None]
  else [].

(** The question and the command of the tmux attachment, inside and
    outside of a tmux session. *)
Definition attach_question (e : Env) : string :=
  if Py.truthy_opt (environ e "TMUX") then "Switch to workspace window?"
  else "Attach to tmux session now?".

Definition attach_cmd (located : string -> string) (e : Env)
    (session window_name : string) : list string :=
  if Py.truthy_opt (environ e "TMUX")
  then [located "tmux"; "switch-client"; "-t"; session ++ ":" ++ window_name]
  else [located "tmux"; "attach"; "-t"; session; ";"; "select-window"; "-t";
        window_name].

(** The event is a git process, or the question about removing a
    directory. *)
Definition removal_question : Event :=
  Asked "Remove existing directory and continue?".

Definition is_git (ev : Event) : Prop :=
  exists args cwd, ev = Ran ("git" :: args) cwd.

Definition is_git_or_removal (ev : Event) : Prop :=
  is_git ev \/ ev = removal_question.

(** The [git worktree add] command of [create_worktree]. *)
Definition add_cmd (is_existing : bool)
    (worktree_path branch_name base_branch : string) : list string :=
  if is_existing then add_existing_cmd worktree_path branch_name
  else add_new_cmd worktree_path branch_name base_branch.

(** The copy of a file of one directory to the same name in another. *)
Definition copy_of (source_dir dest_dir env_file : string)
    : CliWorktree.FsOp :=
  CliWorktree.Copy2 (source_dir ++ "/" ++ env_file)
    (dest_dir ++ "/" ++ env_file).

(** The editor the terminal launcher is configured with, if any, is on
    the search path. *)
Definition editor_found (settings : LetsSettings) (e : Env) : Prop :=
  Py.truthy (editor_command settings) = true ->
  which e (editor_command settings) = true.


(** * Properties *)

(** ** Running the monad *)

Section Running.

Context {A B : Type}.

Lemma bind_ok (m : M A) (k : A -> M B) e s a s' :
  m e s = (Ok a, s') -> bind m k e s = k a e s'.
Proof. intros H. unfold bind. rewrite H. reflexivity. Qed.

Lemma bind_raise (m : M A) (k : A -> M B) e s x s' :
  m e s = (Raise x, s') -> bind m k e s = (Raise x, s').
Proof. intros H. unfold bind. rewrite H. reflexivity. Qed.

Lemma try_ok (m : M A) caught (h : exn -> M A) e s a s' :
  m e s = (Ok a, s') -> try_except m caught h e s = (Ok a, s').
Proof. intros H. unfold try_except. rewrite H. reflexivity. Qed.

Lemma try_caught (m : M A) caught (h : exn -> M A) e s x s' :
  m e s = (Raise x, s') -> caught x = true ->
  try_except m caught h e s = h x e s'.
Proof. intros H C. unfold try_except. rewrite H, C. reflexivity. Qed.

End Running.

Lemma logged_nil s : logged s [] = s.
Proof. destruct s. unfold logged. simpl. rewrite app_nil_r. reflexivity. Qed.

Lemma logged_logged s a b : logged (logged s a) b = logged s (a ++ b).
Proof. unfold logged. simpl. rewrite app_assoc. reflexivity. Qed.

Lemma record_logged ev s : record ev s = logged s [ev].
Proof. reflexivity. Qed.

(** A checked command: status 0 gives the stripped output, any other
    status raises [CalledProcessError]. *)
Lemma run_command_checked cmd capture cwd e s :
  Cli.run_command cmd capture true cwd e s =
  (if (returncode (spawn e cmd cwd) =? 0)%Z
   then Ok (if capture then Some (Py.strip (stdout (spawn e cmd cwd))) else None)
   else Raise (CalledProcessError (returncode (spawn e cmd cwd)) cmd),
   logged s [Ran cmd cwd]).
Proof.
  unfold Cli.run_command, try_except, bind, subprocess_run.
  rewrite record_logged.
  destruct (returncode (spawn e cmd cwd) =? 0)%Z; simpl.
  - destruct capture; reflexivity.
  - reflexivity.
Qed.

(** An unchecked command never raises, whatever its exit status. *)
Lemma run_command_unchecked cmd capture cwd e s :
  Cli.run_command cmd capture false cwd e s =
  (Ok (if capture then Some (Py.strip (stdout (spawn e cmd cwd))) else None),
   logged s [Ran cmd cwd]).
Proof.
  unfold Cli.run_command, try_except, bind, subprocess_run.
  rewrite record_logged. simpl. destruct capture; reflexivity.
Qed.

(** ** The existence probe *)

Lemma branch_exists_run name e s :
  Cli.branch_exists name e s =
  (Ok (Spec.exists_branch e name), logged s (Spec.probe_events e name)).
Proof.
  unfold Cli.branch_exists, try_except, bind.
  rewrite run_command_checked.
  unfold Spec.exists_branch, Spec.probe_events, Spec.verifies.
  destruct (returncode (spawn e (Cli.verify_cmd name) None) =? 0)%Z; simpl.
  - reflexivity.
  - rewrite run_command_checked, logged_logged.
    match goal with |- context [if ?c then _ else _] => destruct c end;
      reflexivity.
Qed.

Lemma prompts_logged_ran s evs :
  forallb (fun ev => negb (is_asked ev)) evs = true ->
  prompts (logged s evs) = prompts s.
Proof.
  intros H. unfold prompts, logged. simpl. rewrite filter_app.
  assert (filter is_asked evs = []) as ->.
  { induction evs as [|ev evs IH]; simpl in *; [reflexivity|].
    apply andb_prop in H. destruct H as [H1 H2].
    destruct (is_asked ev); [discriminate|]. auto. }
  rewrite app_nil_r. reflexivity.
Qed.

Lemma probe_events_ran e name :
  forallb (fun ev => negb (is_asked ev)) (Spec.probe_events e name) = true.
Proof. unfold Spec.probe_events. destruct (Spec.verifies e name); reflexivity. Qed.

Lemma try_numbers_run base range : forall e s,
  Cli.try_numbers base range e s =
  (Ok (option_map (fun c => (c, false))
         (Spec.first_free e (map (Spec.numbered base) range))),
   logged s (flat_map (Spec.probe_events e)
               (Spec.probed e (map (Spec.numbered base) range)))).
Proof.
  induction range as [|i rest IH]; intros e s.
  - simpl. rewrite logged_nil. reflexivity.
  - cbn [Cli.try_numbers map Spec.first_free Spec.probed].
    rewrite (bind_ok _ _ _ _ _ _ (branch_exists_run _ e s)).
    fold (Spec.numbered base i).
    destruct (Spec.exists_branch e (Spec.numbered base i)); cbn [negb].
    + rewrite IH, logged_logged. cbn [flat_map]. reflexivity.
    + cbn [flat_map option_map]. rewrite app_nil_r. reflexivity.
Qed.

Lemma confirm_run text e s :
  confirm text e s = (Ok (answers e (prompts s)), logged s [Asked text]).
Proof. reflexivity. Qed.

Lemma prompts_probed e s name :
  prompts (logged s (Spec.probe_events e name)) = prompts s.
Proof. apply prompts_logged_ran, probe_events_ran. Qed.

(** C4: a desired name that verifies neither as a local ref nor as
    [origin/<name>] (whatever non-zero status the two probes end with) is
    returned unchanged with [is_existing = False]; the only things done are
    the two probes, so no question is put to the user; and the probe itself
    never raises, for any name. *)
Theorem handle_branch_conflict_unused_name base e s
    (Hlocal : Spec.verifies e base = false)
    (Hremote : Spec.verifies e ("origin/" ++ base) = false) :
  Cli.handle_branch_conflict base e s =
    (Ok (base, false),
     logged s [Ran (Cli.verify_cmd base) None;
               Ran (Cli.verify_cmd ("origin/" ++ base)) None])
  /\ prompts (snd (Cli.handle_branch_conflict base e s)) = prompts s
  /\ (forall name s0, exists b s1, Cli.branch_exists name e s0 = (Ok b, s1)).
Proof.
  assert (Hrun : Cli.handle_branch_conflict base e s =
    (Ok (base, false),
     logged s [Ran (Cli.verify_cmd base) None;
               Ran (Cli.verify_cmd ("origin/" ++ base)) None])).
  { unfold Cli.handle_branch_conflict, bind.
    rewrite branch_exists_run.
    unfold Spec.exists_branch, Spec.probe_events.
    rewrite Hlocal, Hremote. reflexivity. }
  split; [exact Hrun|]. split.
  - rewrite Hrun. apply prompts_logged_ran. reflexivity.
  - intros name s0. rewrite branch_exists_run. eauto.
Qed.

Lemma handle_branch_conflict_unused_name_witness :
  Cli.handle_branch_conflict "fix-bug" World.empty_repo World.initial =
    (Ok ("fix-bug", false),
     logged World.initial
       [Ran (Cli.verify_cmd "fix-bug") None;
        Ran (Cli.verify_cmd "origin/fix-bug") None])
  /\ prompts (snd (Cli.handle_branch_conflict "fix-bug" World.empty_repo
                     World.initial)) = prompts World.initial.
Proof.
  destruct (handle_branch_conflict_unused_name "fix-bug" World.empty_repo
              World.initial) as [H1 [H2 _]];
    [reflexivity | reflexivity | ].
  split; [exact H1 | exact H2].
Defined.

(** C1: when the desired name exists and the user declines to reuse it,
    the candidates are probed in the order [<name>-<HHMMSS>], [<name>-1],
    ..., [<name>-99]; the first one the probe reports as not existing is
    returned with [is_existing = False]; when all exist, the result is
    [<name>-<YYYYMMDD-HHMMSS>], which is not probed.  The log shows the
    probes that were run, in order.  In the scenario of the specification
    (clock at 15:30:00, [feature-153000] taken, [feature-1] free) the
    result is [("feature-1", False)]. *)
Theorem handle_branch_conflict_declined base e s
    (Hexists : Spec.exists_branch e base = true)
    (Hdecline : answers e (prompts s) = false) :
  let run := Cli.handle_branch_conflict base e s in
  let cs := Spec.candidates base (clock e (ticks s)) in
  fst run =
    Ok (match Spec.first_free e cs with
        | Some c => c
        | None => base ++ "-" ++ strftime_Ymd_HMS (clock e (S (ticks s)))
        end, false)
  /\ log (snd run) =
       (log s ++ Spec.probe_events e base ++ [Asked "Use existing branch?"]
        ++ flat_map (Spec.probe_events e) (Spec.probed e cs))%list
  /\ (base = "feature" ->
      strftime_HMS (clock e (ticks s)) = "153000" ->
      Spec.exists_branch e "feature-153000" = true ->
      Spec.exists_branch e "feature-1" = false ->
      fst run = Ok ("feature-1", false)).
Proof.
  intros run cs.
  assert (Hrun : run =
    (Ok (match Spec.first_free e cs with
         | Some c => c
         | None => base ++ "-" ++ strftime_Ymd_HMS (clock e (S (ticks s)))
         end, false),
     {| log := (log s ++ Spec.probe_events e base
                ++ [Asked "Use existing branch?"]
                ++ flat_map (Spec.probe_events e) (Spec.probed e cs))%list;
        ticks := match Spec.first_free e cs with
                 | Some _ => S (ticks s)
                 | None => S (S (ticks s))
                 end |})).
  { subst run cs. unfold Cli.handle_branch_conflict, bind.
    rewrite branch_exists_run, Hexists. cbn [negb].
    rewrite confirm_run, prompts_probed, Hdecline.
    unfold now. cbn [ticks log logged].
    rewrite branch_exists_run.
    unfold Spec.candidates.
    cbn [Spec.first_free Spec.probed flat_map].
    destruct (Spec.exists_branch e (base ++ "-" ++ strftime_HMS (clock e (ticks s))));
      cbn [negb].
    - rewrite try_numbers_run.
      destruct (Spec.first_free e (map (Spec.numbered base) (seq 1 99)));
        cbn [option_map]; unfold ret, logged; cbn [log ticks];
        repeat rewrite <- app_assoc; reflexivity.
    - unfold ret, logged; cbn [log ticks flat_map].
      repeat rewrite <- app_assoc. rewrite app_nil_r. reflexivity. }
  split; [rewrite Hrun; reflexivity|].
  split; [rewrite Hrun; reflexivity|].
  intros -> Hts Htaken Hfree. rewrite Hrun. cbn [fst].
  subst cs. unfold Spec.candidates. cbn [Spec.first_free].
  rewrite Hts. change ("feature" ++ "-" ++ "153000") with "feature-153000".
  rewrite Htaken.
  change (seq 1 99) with (1 :: seq 2 98). cbn [map Spec.first_free].
  change (Spec.numbered "feature" 1) with "feature-1".
  rewrite Hfree. reflexivity.
Qed.

Lemma handle_branch_conflict_declined_witness :
  fst (Cli.handle_branch_conflict "feature" World.feature_repo World.initial)
  = Ok ("feature-1", false).
Proof.
  pose proof (handle_branch_conflict_declined "feature" World.feature_repo
                World.initial) as H.
  destruct H as [_ [_ H]]; [reflexivity | reflexivity |].
  apply H; reflexivity.
Defined.

(** ** Launcher registry and selection *)

Lemma terminal_is_available_run e s :
  Launchers.terminal_is_available e s = (Ok (Spec.terminal_available e), s).
Proof.
  unfold Launchers.terminal_is_available, Spec.terminal_available, bind, ask,
    shutil_which, ret.
  destruct (os_name e); try reflexivity.
  destruct (which e "open"), (which e "gnome-terminal"), (which e "xterm");
    reflexivity.
Qed.

Lemma tmux_is_available_run e s :
  Launchers.tmux_is_available e s = (Ok (Spec.tmux_available e), s).
Proof. reflexivity. Qed.

Lemma registered_cases name :
  Spec.registered name = true -> name = "tmux" \/ name = "terminal".
Proof.
  unfold Spec.registered. intros H. apply orb_prop in H.
  destruct H as [H|H]; apply String.eqb_eq in H; auto.
Qed.

(** C8: an identifier outside the registry makes [get_launcher] raise
    [ValueError] with a message that ends with the list of the valid
    identifiers; a registered identifier gives the implementation
    registered under it, and nothing is raised. *)
Theorem get_launcher_registry name settings e s :
  Launchers.dict_keys Launchers.launchers = ["tmux"; "terminal"]
  /\ (Spec.registered name = false ->
      Launchers.get_launcher name settings e s =
        (Raise (ValueError ("Unknown launcher: " ++ name ++ ". Available: "
                            ++ "['tmux', 'terminal']")), s))
  /\ (Spec.registered name = true ->
      Launchers.get_launcher name settings e s =
        (Ok (if String.eqb name "tmux"
             then Launchers.TmuxLauncher settings
             else Launchers.TerminalLauncher settings), s)).
Proof.
  split; [reflexivity|].
  unfold Spec.registered, Launchers.get_launcher, Launchers.launchers.
  cbn [Launchers.dict_get].
  destruct (String.eqb name "tmux"), (String.eqb name "terminal");
    cbn [orb]; split; intros H; try discriminate H; reflexivity.
Qed.

Lemma get_launcher_registry_witness :
  Launchers.get_launcher "screen" (Build_LetsSettings "screen" "claude"
      EmptyString "dev" true EmptyString) World.empty_repo World.initial =
    (Raise (ValueError
       "Unknown launcher: screen. Available: ['tmux', 'terminal']"),
     World.initial)
  /\ Launchers.get_launcher "terminal" (Build_LetsSettings "tmux" "claude"
       EmptyString "dev" true EmptyString) World.empty_repo World.initial =
     (Ok (Launchers.TerminalLauncher (Build_LetsSettings "tmux" "claude"
            EmptyString "dev" true EmptyString)), World.initial).
Proof.
  split.
  - apply (get_launcher_registry "screen"). reflexivity.
  - apply (get_launcher_registry "terminal"). reflexivity.
Defined.

Lemma get_launcher_run name settings e s :
  Launchers.get_launcher name settings e s =
  (if String.eqb name "tmux" then Ok (Launchers.TmuxLauncher settings)
   else if String.eqb name "terminal"
        then Ok (Launchers.TerminalLauncher settings)
        else Raise (ValueError ("Unknown launcher: " ++ name ++ ". Available: "
                                ++ "['tmux', 'terminal']")), s).
Proof.
  unfold Launchers.get_launcher, Launchers.launchers.
  cbn [Launchers.dict_get].
  destruct (String.eqb name "tmux"), (String.eqb name "terminal"); reflexivity.
Qed.

Lemma is_available_run l e s :
  Launchers.is_available l e s =
  (Ok match l with
      | Launchers.TmuxLauncher _ => Spec.tmux_available e
      | Launchers.TerminalLauncher _ => Spec.terminal_available e
      end, s).
Proof. destruct l; [reflexivity | apply terminal_is_available_run]. Qed.

Lemma first_available_run settings e s :
  Launchers.first_available ["tmux"; "terminal"] settings e s =
  (Ok (find (Spec.available e) ["tmux"; "terminal"]), s).
Proof.
  pose proof (terminal_is_available_run e s) as Hterm.
  cbn [Launchers.first_available]. unfold bind, Launchers.get_launcher.
  cbn [Launchers.launchers Launchers.dict_get String.eqb Ascii.eqb Bool.eqb
       ret Launchers.is_available Launchers.tmux_is_available shutil_which
       find Spec.available].
  unfold ret, shutil_which, Spec.tmux_available.
  destruct (which e "tmux"); [reflexivity|].
  rewrite Hterm.
  destruct (Spec.terminal_available e); reflexivity.
Qed.

Lemma get_available_launchers_run settings e s :
  Launchers.get_available_launchers settings e s =
  (Ok (filter (Spec.available e) ["tmux"; "terminal"]), s).
Proof.
  unfold Launchers.get_available_launchers.
  pose proof (terminal_is_available_run e s) as Hterm.
  cbn [Launchers.collect_available]. unfold bind, Launchers.get_launcher.
  cbn [Launchers.launchers Launchers.dict_get String.eqb Ascii.eqb Bool.eqb
       ret Launchers.is_available Launchers.tmux_is_available shutil_which
       filter Spec.available].
  unfold ret, shutil_which, Spec.tmux_available.
  rewrite Hterm.
  destruct (which e "tmux"), (Spec.terminal_available e); reflexivity.
Qed.

(** C5: [get_best_available_launcher] never raises, whatever the preferred
    identifier and the host: it returns the preferred identifier when that
    is registered and available, else the first available one of [tmux],
    [terminal], else [terminal]; it changes nothing; and when
    [get_available_launchers] finds none, the result is [terminal]. *)
Theorem get_best_available_launcher_total settings project_path e s :
  Launchers.get_best_available_launcher settings project_path e s =
    (Ok (Spec.best e (launcher settings)), s)
  /\ (fst (Launchers.get_available_launchers settings e s) = Ok [] ->
      fst (Launchers.get_best_available_launcher settings project_path e s)
      = Ok "terminal").
Proof.
  assert (Hrun : Launchers.get_best_available_launcher settings project_path e s =
                 (Ok (Spec.best e (launcher settings)), s)).
  { unfold Launchers.get_best_available_launcher, try_except, bind.
    rewrite get_launcher_run. unfold Spec.best, Spec.registered.
    destruct (String.eqb (launcher settings) "tmux") eqn:Etmux.
    - apply String.eqb_eq in Etmux. rewrite Etmux.
      change (Spec.available e "tmux") with (Spec.tmux_available e).
      rewrite is_available_run. cbn [orb andb].
      destruct (Spec.tmux_available e); [reflexivity|].
      unfold ret at 1. rewrite first_available_run.
      destruct (find (Spec.available e) ["tmux"; "terminal"]); reflexivity.
    - destruct (String.eqb (launcher settings) "terminal") eqn:Eterm.
      + apply String.eqb_eq in Eterm. rewrite Eterm.
        change (Spec.available e "terminal") with (Spec.terminal_available e).
        rewrite is_available_run. cbn [orb andb].
        destruct (Spec.terminal_available e); [reflexivity|].
        unfold ret at 1. rewrite first_available_run.
        destruct (find (Spec.available e) ["tmux"; "terminal"]); reflexivity.
      + cbn [orb andb is_ValueError]. unfold ret at 1.
        rewrite first_available_run.
        destruct (find (Spec.available e) ["tmux"; "terminal"]); reflexivity. }
  split; [exact Hrun|].
  rewrite Hrun, get_available_launchers_run. cbn [fst].
  intros Hnone. injection Hnone as Hnone.
  unfold Spec.best.
  assert (Hall : forall name, In name ["tmux"; "terminal"] ->
                              Spec.available e name = false).
  { intros name Hin.
    destruct (Spec.available e name) eqn:Ha; [|reflexivity].
    assert (In name (filter (Spec.available e) ["tmux"; "terminal"])) as Hf
        by (apply filter_In; auto).
    cbn [filter] in Hf. rewrite Hnone in Hf. destruct Hf. }
  assert (Hfind : find (Spec.available e) ["tmux"; "terminal"] = None).
  { cbn [find]. rewrite !Hall by (simpl; auto). reflexivity. }
  rewrite Hfind.
  destruct (Spec.registered (launcher settings)) eqn:Hr; [|reflexivity].
  destruct (registered_cases _ Hr) as [-> | ->];
    rewrite Hall by (simpl; auto); reflexivity.
Qed.

Lemma get_best_available_launcher_total_witness :
  fst (Launchers.get_best_available_launcher
         (Build_LetsSettings "tmux" "claude" EmptyString "dev" true EmptyString)
         "/home/dev/project" World.empty_repo World.initial) = Ok "terminal".
Proof.
  apply (get_best_available_launcher_total
           (Build_LetsSettings "tmux" "claude" EmptyString "dev" true EmptyString)
           "/home/dev/project" World.empty_repo World.initial).
  reflexivity.
Defined.

(** ** The worktree base directory *)

(** C9: a non-empty [custom_dir] wins, expanded and resolved; without
    one, a non-empty [LETS_WORKTREE_DIR] is used, expanded and resolved;
    without either, the result is [<xdg_data_home>/lets/worktrees]. *)
Theorem get_worktree_base_dir_precedence custom_dir e s :
  (forall dir, custom_dir = Some dir -> Py.truthy dir = true ->
     Cli.get_worktree_base_dir custom_dir e s =
       (Ok (resolve e (expanduser e dir)), s))
  /\ (forall env_dir, Py.truthy_opt custom_dir = false ->
        environ e "LETS_WORKTREE_DIR" = Some env_dir ->
        Py.truthy env_dir = true ->
        Cli.get_worktree_base_dir custom_dir e s =
          (Ok (resolve e (expanduser e env_dir)), s))
  /\ (Py.truthy_opt custom_dir = false ->
      Py.truthy_opt (environ e "LETS_WORKTREE_DIR") = false ->
      Cli.get_worktree_base_dir custom_dir e s =
        (Ok (PathLib.joinpath (PathLib.joinpath (xdg_data_home e) "lets")
               "worktrees"), s)).
Proof.
  unfold Cli.get_worktree_base_dir, bind, ask, Py.truthy_opt.
  repeat split.
  - intros dir -> Hdir. rewrite Hdir. reflexivity.
  - intros env_dir Hc Henv Htruthy.
    destruct custom_dir as [dir|]; [rewrite Hc|];
      rewrite Henv, Htruthy; reflexivity.
  - intros Hc Henv.
    destruct custom_dir as [dir|]; [rewrite Hc|];
      destruct (environ e "LETS_WORKTREE_DIR") as [env_dir|];
      try rewrite Henv; reflexivity.
Qed.

Lemma get_worktree_base_dir_precedence_witness :
  Cli.get_worktree_base_dir (Some "/tmp/wt") World.configured_repo World.initial
    = (Ok "/tmp/wt", World.initial)
  /\ Cli.get_worktree_base_dir (Some EmptyString) World.configured_repo
       World.initial = (Ok "/srv/worktrees", World.initial)
  /\ Cli.get_worktree_base_dir None World.empty_repo World.initial
     = (Ok "/home/dev/.local/share/lets/worktrees", World.initial).
Proof.
  split; [|split].
  - exact (proj1 (get_worktree_base_dir_precedence (Some "/tmp/wt")
                    World.configured_repo World.initial)
             "/tmp/wt" eq_refl eq_refl).
  - exact (proj1 (proj2 (get_worktree_base_dir_precedence (Some EmptyString)
                           World.configured_repo World.initial))
             "/srv/worktrees" eq_refl eq_refl eq_refl).
  - exact (proj2 (proj2 (get_worktree_base_dir_precedence None
                           World.empty_repo World.initial))
             eq_refl eq_refl).
Defined.

(** ** The AI-tool invocation *)

Lemma replace_quote task :
  Py.replace "'" "'\''" task = Spec.escaped task.
Proof.
  unfold Py.replace.
  induction task as [|c rest IH]; [reflexivity|].
  cbn [Py.replace_from Spec.escaped String.prefix String.length Nat.sub].
  assert (Hnil : String.prefix EmptyString rest = true)
    by (destruct rest; reflexivity).
  destruct (ascii_dec "'" c) as [<-|Hne].
  - rewrite Hnil, IH, Ascii.eqb_refl. reflexivity.
  - assert (Ascii.eqb c "'" = false) as ->.
    { apply Ascii.eqb_neq. congruence. }
    rewrite IH. reflexivity.
Qed.

(** C6: both launchers build the invocation
    [<ai_tool> --dangerously-skip-permissions '<escaped task>'], where the
    escaped task is the task with every single quote replaced by the four
    characters quote, backslash, quote, quote; for the task
    [Fix 'auth' issue] the argument reads ['Fix '\''auth'\'' issue']. *)
Theorem ai_cmd_escapes_quotes ai_tool task :
  Launchers.Tmux.ai_cmd ai_tool task = Spec.invocation ai_tool task
  /\ Launchers.Terminal.ai_cmd ai_tool task = Spec.invocation ai_tool task
  /\ Launchers.Tmux.ai_cmd ai_tool "Fix 'auth' issue" =
       ai_tool ++ " --dangerously-skip-permissions "
       ++ "'Fix '\''auth'\'' issue'"
  /\ Launchers.Terminal.ai_cmd ai_tool "Fix 'auth' issue" =
       ai_tool ++ " --dangerously-skip-permissions "
       ++ "'Fix '\''auth'\'' issue'".
Proof.
  unfold Launchers.Tmux.ai_cmd, Launchers.Terminal.ai_cmd, Spec.invocation.
  rewrite replace_quote.
  repeat split; reflexivity.
Qed.

(** ** Worktree creation *)

(** What [create_worktree] does for a new branch once [git worktree add]
    has succeeded: the push is run unchecked, so its exit status is never
    looked at, the handler of the inner [try] is never entered and the
    tracking command is not run. *)
Lemma create_worktree_new_branch path branch_name base_branch e s :
  returncode (spawn e (add_new_cmd path branch_name base_branch) None) = 0%Z ->
  Cli.create_worktree path branch_name base_branch false e s =
    (Ok true,
     logged s [Ran fetch_cmd None;
               Ran (add_new_cmd path branch_name base_branch) None;
               Ran (push_cmd branch_name) (Some path)]).
Proof.
  intros Hadd.
  unfold Cli.create_worktree, Cli.run_command_with_spinner, try_except, bind.
  rewrite run_command_unchecked, run_command_checked.
  fold (add_new_cmd path branch_name base_branch). rewrite Hadd.
  cbn [Z.eqb]. rewrite run_command_unchecked.
  unfold ret. rewrite !logged_logged. reflexivity.
Qed.

(** C7, on the code: in a repository where the push exits with status
    128, [create_worktree] returns [True], and the processes it ran are
    the fetch, the worktree creation and the push; the tracking command
    [git branch --set-upstream-to=origin/main fix-bug] is not among them. *)
Theorem create_worktree_push_failure_no_fallback :
  let run := Cli.create_worktree "/srv/wt/fix-bug" "fix-bug" "origin/main"
               false World.no_remote World.initial in
  returncode (spawn World.no_remote (push_cmd "fix-bug")
                (Some "/srv/wt/fix-bug")) = 128%Z
  /\ fst run = Ok true
  /\ log (snd run) =
       [Ran fetch_cmd None;
        Ran (add_new_cmd "/srv/wt/fix-bug" "fix-bug" "origin/main") None;
        Ran (push_cmd "fix-bug") (Some "/srv/wt/fix-bug")]
  /\ ~ In (Ran (track_cmd "fix-bug") (Some "/srv/wt/fix-bug")) (log (snd run)).
Proof.
  intros run.
  assert (Hrun : run =
    (Ok true,
     logged World.initial
       [Ran fetch_cmd None;
        Ran (add_new_cmd "/srv/wt/fix-bug" "fix-bug" "origin/main") None;
        Ran (push_cmd "fix-bug") (Some "/srv/wt/fix-bug")]))
    by (apply create_worktree_new_branch; reflexivity).
  rewrite Hrun. repeat split.
  cbn. intros [H|[H|[H|[]]]]; discriminate H.
Qed.

(** ** Setting up the workspace *)

Lemma bind_inv_ok {A B} (m : M A) (k : A -> M B) e s b s' :
  bind m k e s = (Ok b, s') ->
  exists a s1, m e s = (Ok a, s1) /\ k a e s1 = (Ok b, s').
Proof.
  unfold bind. destruct (m e s) as [[a|x] s1]; intros H.
  - eauto.
  - discriminate H.
Qed.

Lemma get_pane_base_index_total e s :
  exists n, Launchers.Tmux.get_pane_base_index e s =
            (Ok n, logged s [Ran pane_index_cmd None]).
Proof.
  unfold Launchers.Tmux.get_pane_base_index, Launchers.run_command,
    try_except, bind.
  rewrite run_command_checked. fold pane_index_cmd.
  destruct (returncode (spawn e pane_index_cmd None) =? 0)%Z;
    cbn [is_CalledProcessError]; [|eexists; reflexivity].
  destruct (Py.truthy _); [|eexists; reflexivity].
  destruct (Py.last_item _) as [w|]; [|eexists; reflexivity].
  destruct (Py.int_of_string w); eexists; reflexivity.
Qed.

Lemma editor_of_total settings e s :
  exists ed, Launchers.Tmux.editor_of settings e s = (Ok ed, s).
Proof.
  unfold Launchers.Tmux.editor_of, bind, ask, ret.
  destruct (Py.truthy _); [eexists; reflexivity|].
  destruct (environ e "EDITOR"); eexists; reflexivity.
Qed.

(** Without the [tmux] binary the set-up reports failure and does nothing. *)
Lemma tmux_setup_unavailable settings path branch_name task tool e s :
  which e "tmux" = false ->
  Launchers.Tmux.setup_workspace settings path branch_name task tool e s =
    (Ok false, s).
Proof.
  intros H. unfold Launchers.Tmux.setup_workspace, bind.
  rewrite tmux_is_available_run. unfold Spec.tmux_available. rewrite H.
  reflexivity.
Qed.

(** With the [tmux] binary present the set-up never returns [False]:
    it returns [True] or lets an exception escape. *)
Lemma tmux_setup_never_false settings path branch_name task tool e s b s' :
  which e "tmux" = true ->
  Launchers.Tmux.setup_workspace settings path branch_name task tool e s =
    (Ok b, s') ->
  b = true.
Proof.
  intros Hw H. unfold Launchers.Tmux.setup_workspace in H.
  apply bind_inv_ok in H. destruct H as (a & s1 & Ha & H).
  rewrite tmux_is_available_run in Ha. unfold Spec.tmux_available in Ha.
  rewrite Hw in Ha. injection Ha as <- <-. cbn [negb] in H.
  repeat (apply bind_inv_ok in H; destruct H as (? & ? & _ & H);
          cbv beta zeta in H).
  unfold ret in H. congruence.
Qed.

(** When the session is absent and [tmux new-session] exits with a
    non-zero status, [CalledProcessError] escapes from the set-up. *)
Lemma tmux_setup_new_session_fails settings path branch_name task tool e s :
  which e "tmux" = true ->
  returncode (spawn e (has_session_cmd (tmux_session settings)) None) <> 0%Z ->
  returncode (spawn e (new_session_cmd (tmux_session settings) branch_name path)
                None) <> 0%Z ->
  Launchers.Tmux.setup_workspace settings path branch_name task tool e s =
    (Raise (CalledProcessError
              (returncode (spawn e (new_session_cmd (tmux_session settings)
                                      branch_name path) None))
              (new_session_cmd (tmux_session settings) branch_name path)),
     logged s [Ran (has_session_cmd (tmux_session settings)) None;
               Ran (new_session_cmd (tmux_session settings) branch_name path)
                 None]).
Proof.
  intros Hw Hhas Hnew.
  apply Z.eqb_neq in Hhas. apply Z.eqb_neq in Hnew.
  unfold Launchers.Tmux.setup_workspace, Launchers.run_command, try_except, bind.
  rewrite tmux_is_available_run. unfold Spec.tmux_available. rewrite Hw.
  cbn [negb]. rewrite run_command_checked.
  fold (has_session_cmd (tmux_session settings)). rewrite Hhas.
  cbn [is_CalledProcessError negb ret]. unfold ret at 1. cbn [negb].
  rewrite run_command_checked.
  fold (new_session_cmd (tmux_session settings) branch_name path).
  rewrite Hnew, logged_logged. reflexivity.
Qed.

(** When every process exits with status 0 the set-up returns [True]. *)
Lemma tmux_setup_succeeds settings path branch_name task tool e s :
  which e "tmux" = true ->
  (forall cmd cwd, returncode (spawn e cmd cwd) = 0%Z) ->
  fst (Launchers.Tmux.setup_workspace settings path branch_name task tool e s)
  = Ok true.
Proof.
  intros Hw Hall.
  assert (Hrun : forall cmd capture cwd s0,
             Cli.run_command cmd capture true cwd e s0 =
             (Ok (if capture
                  then Some (Py.strip (stdout (spawn e cmd cwd))) else None),
              logged s0 [Ran cmd cwd])).
  { intros. rewrite run_command_checked, Hall. reflexivity. }
  unfold Launchers.Tmux.setup_workspace, Launchers.run_command, try_except at 1.
  unfold bind at 1. rewrite tmux_is_available_run.
  unfold Spec.tmux_available. rewrite Hw. cbn [negb].
  unfold bind at 1. unfold bind at 1. rewrite Hrun. unfold ret at 1.
  cbn [negb]. unfold bind at 1. rewrite Hrun.
  unfold bind at 1.
  destruct (get_pane_base_index_total e
              (logged (logged s [Ran (has_session_cmd (tmux_session settings)) None])
                 [Ran ["tmux"; "new-window"; "-t"; tmux_session settings ++ ":";
                       "-n"; branch_name; "-c"; path] None]))
    as [n Hn].
  unfold has_session_cmd in Hn. rewrite Hn.
  unfold bind at 1. rewrite Hrun.
  unfold bind at 1.
  match goal with
  | |- context [Launchers.Tmux.editor_of settings e ?s0] =>
      destruct (editor_of_total settings e s0) as [ed Hed]; rewrite Hed
  end.
  unfold bind. rewrite !Hrun. reflexivity.
Qed.

(** C2, on the code: on a host where [tmux] is installed but no tmux
    command succeeds, [has-session] fails (so the session counts as
    absent), [new-session] exits with status 1, and [setup_workspace] does
    not return [False]: [CalledProcessError] escapes. *)
Theorem tmux_setup_workspace_raises :
  Launchers.Tmux.setup_workspace World.dev_settings "/srv/wt/fix-bug" "fix-bug"
    "Fix the bug" "claude" World.broken_tmux World.initial =
  (Raise (CalledProcessError 1
            (new_session_cmd "dev" "fix-bug" "/srv/wt/fix-bug")),
   logged World.initial
     [Ran (has_session_cmd "dev") None;
      Ran (new_session_cmd "dev" "fix-bug" "/srv/wt/fix-bug") None]).
Proof.
  apply (tmux_setup_new_session_fails World.dev_settings); [reflexivity| |];
    cbn; discriminate.
Qed.

(** ** Characters and lengths of names *)

Lemma truthy_false_empty s : Py.truthy s = false -> s = EmptyString.
Proof. destruct s; [reflexivity | discriminate]. Qed.



Lemma length_app (a b : string) :
  String.length (a ++ b) = (String.length a + String.length b)%nat.
Proof. induction a as [|c a IH]; simpl; [reflexivity | rewrite IH; reflexivity]. Qed.

Lemma all_chars_app p a b :
  Py.all_chars p (a ++ b) = Py.all_chars p a && Py.all_chars p b.
Proof.
  induction a as [|c a IH]; simpl; [reflexivity|].
  rewrite IH, andb_assoc. reflexivity.
Qed.

Lemma all_chars_weaken (p q : ascii -> bool) s :
  (forall c, p c = true -> q c = true) ->
  Py.all_chars p s = true -> Py.all_chars q s = true.
Proof.
  intros Hpq. induction s as [|c s IH]; simpl; [reflexivity|].
  intros H. apply andb_prop in H. destruct H as [H1 H2].
  rewrite (Hpq _ H1), (IH H2). reflexivity.
Qed.








Lemma digit_char_digit d : Py.is_digit (Py.digit_char d) = true.
Proof.
  unfold Py.is_digit, Py.between, Py.digit_char.
  assert (d mod 10 < 10)%nat by (apply Nat.mod_upper_bound; lia).
  rewrite nat_ascii_embedding by lia.
  apply andb_true_intro. split; apply Nat.leb_le; lia.
Qed.

Lemma pad2_digits n : Py.all_chars Py.is_digit (Py.pad2 n) = true.
Proof.
  unfold Py.pad2. cbn [Py.all_chars]. rewrite !digit_char_digit. reflexivity.
Qed.

Lemma pad4_digits n : Py.all_chars Py.is_digit (Py.pad4 n) = true.
Proof.
  unfold Py.pad4, Py.pad2. cbn [Py.all_chars].
  rewrite !digit_char_digit. reflexivity.
Qed.

Lemma pad2_length n : String.length (Py.pad2 n) = 2%nat.
Proof. reflexivity. Qed.

Lemma pad4_length n : String.length (Py.pad4 n) = 4%nat.
Proof. reflexivity. Qed.

Lemma digits_are_suffix_chars s :
  Py.all_chars Py.is_digit s = true ->
  Py.all_chars Spec.digit_or_hyphen s = true.
Proof.
  apply all_chars_weaken. intros c H. unfold Spec.digit_or_hyphen.
  rewrite H. reflexivity.
Qed.

Lemma strftime_HMS_ok d : Spec.suffix_ok (strftime_HMS d) = true.
Proof.
  unfold Spec.suffix_ok, strftime_HMS.
  rewrite !all_chars_app, !length_app, !pad2_length.
  rewrite !(digits_are_suffix_chars _ (pad2_digits _)).
  reflexivity.
Qed.

Lemma strftime_Ymd_HMS_ok d : Spec.suffix_ok (strftime_Ymd_HMS d) = true.
Proof.
  unfold Spec.suffix_ok, strftime_Ymd_HMS, strftime_HMS.
  rewrite !all_chars_app, !length_app, !pad2_length, pad4_length.
  rewrite !(digits_are_suffix_chars _ (pad2_digits _)).
  rewrite (digits_are_suffix_chars _ (pad4_digits _)).
  reflexivity.
Qed.

Lemma numbers_ok i : In i (seq 1 99) -> Spec.suffix_ok (Py.str_of_nat i) = true.
Proof.
  assert (H : forallb (fun i => Spec.suffix_ok (Py.str_of_nat i)) (seq 1 99) = true)
    by (vm_compute; reflexivity).
  rewrite forallb_forall in H. apply H.
Qed.

(** ** Generating a branch name *)

Lemma clean_output_last_line r :
  Cli.clean_output r = Spec.cleaned (Spec.last_line r).
Proof. reflexivity. Qed.

(** The whole of [generate_branch_name]: one process is run; its exit
    status is not looked at. *)
Lemma generate_branch_name_run task tool verbose e s :
  Cli.generate_branch_name task tool verbose e s =
  let ran := Ran [tool; "-p"; Cli.branch_prompt task] None in
  if (3 <=? String.length (Spec.ai_name e tool task))%nat
  then (Ok (Spec.ai_name e tool task), logged s [ran])
  else match Py.re_search_issue task with
       | Some digits => (Ok ("issue-" ++ digits), logged s [ran])
       | None =>
           (Ok ("task-" ++ strftime_Ymd_HMS (clock e (ticks s))),
            {| log := log s ++ [ran]; ticks := S (ticks s) |})
       end.
Proof.
  unfold Cli.generate_branch_name, Cli.run_command_with_spinner,
    try_except, bind.
  assert (Hsame : (if verbose
                   then Cli.run_command [tool; "-p"; Cli.branch_prompt task]
                          true false None
                   else Cli.run_command [tool; "-p"; Cli.branch_prompt task]
                          true false None) =
                  Cli.run_command [tool; "-p"; Cli.branch_prompt task]
                    true false None) by (destruct verbose; reflexivity).
  rewrite Hsame, run_command_unchecked.
  unfold Spec.ai_name, Spec.ai_answer, Cli.min_branch_length.
  cbv zeta.
  destruct (Py.truthy (Py.strip (stdout (spawn e [tool; "-p"; Cli.branch_prompt task] None))))
    eqn:Htruthy.
  - destruct (3 <=? String.length _)%nat; [reflexivity|].
    destruct (Py.re_search_issue task); reflexivity.
  - apply truthy_false_empty in Htruthy. rewrite Htruthy.
    change (Cli.clean_output EmptyString) with EmptyString.
    cbn [String.length Nat.leb].
    destruct (Py.re_search_issue task); reflexivity.
Qed.


(** The leftmost match is the one taken, and the digits run as far as
    they go. *)
Example re_search_issue_first :
  Py.re_search_issue "Fix #12 and #345, see # 6" = Some "12"
  /\ Py.re_search_issue "#x #007b" = Some "007"
  /\ Py.re_search_issue "no number # here" = None.
Proof. repeat split. Qed.

(** The digits need not be ASCII: Arabic-Indic three, ASCII four,
    fullwidth three and mathematical bold zero are all matched by [\d];
    superscript two is not a decimal digit. *)
Example re_search_issue_unicode :
  Py.re_search_issue
    ("Fix #" ++ Py.bytes [217; 163] ++ "4" ++ Py.bytes [239; 188; 147]
     ++ Py.bytes [240; 157; 159; 142] ++ "x")
  = Some (Py.bytes [217; 163] ++ "4" ++ Py.bytes [239; 188; 147]
          ++ Py.bytes [240; 157; 159; 142])
  /\ Py.re_search_issue ("#" ++ Py.bytes [194; 178]) = None.
Proof. split; vm_compute; reflexivity. Qed.

(** White space and capitals beyond ASCII: a no-break space and an
    ideographic space are stripped, the Kelvin sign becomes [k]. *)
Example strip_lower_unicode :
  Py.strip (Py.bytes [194; 160] ++ "fix" ++ String Py.newline EmptyString
            ++ Py.bytes [227; 128; 128]) = "fix"
  /\ Py.re_sub_disallowed (Py.lower (Py.kelvin_sign ++ "Eys")) = "keys".
Proof. split; vm_compute; reflexivity. Qed.






(** ** Conflict resolution, all cases *)


Lemma first_free_in e cs c : Spec.first_free e cs = Some c -> In c cs.
Proof.
  induction cs as [|c0 cs IH]; simpl; [discriminate|].
  destruct (Spec.exists_branch e c0).
  - intros H. right. auto.
  - intros H. injection H as <-. left. reflexivity.
Qed.

(** A fresh name is the desired one followed by a hyphen and a suffix of
    1 to 15 digits and hyphens. *)
Lemma fresh_name_suffix e base t :
  exists suffix, Spec.fresh_name e base t = base ++ "-" ++ suffix
                 /\ Spec.suffix_ok suffix = true.
Proof.
  unfold Spec.fresh_name.
  destruct (Spec.first_free e (Spec.candidates base (clock e t))) as [c|] eqn:Hc.
  - apply first_free_in in Hc. unfold Spec.candidates in Hc.
    destruct Hc as [<- | Hc].
    + eexists. split; [reflexivity | apply strftime_HMS_ok].
    + apply in_map_iff in Hc. destruct Hc as (i & <- & Hi).
      exists (Py.str_of_nat i). split; [reflexivity | apply numbers_ok, Hi].
  - eexists. split; [reflexivity | apply strftime_Ymd_HMS_ok].
Qed.




(** ** The resolved branch of one invocation *)

Lemma get_git_info_run e s :
  Cli.get_git_info e s =
  if (status e toplevel_cmd None =? 0)%Z
  then if (status e current_branch_cmd None =? 0)%Z
       then (Ok (Py.strip (stdout (spawn e toplevel_cmd None)),
                 PathLib.path_name (Py.strip (stdout (spawn e toplevel_cmd None))),
                 Py.strip (stdout (spawn e current_branch_cmd None))),
             logged s [Ran toplevel_cmd None; Ran current_branch_cmd None])
       else (Raise (CalledProcessError (status e current_branch_cmd None)
                      current_branch_cmd),
             logged s [Ran toplevel_cmd None; Ran current_branch_cmd None])
  else (Raise (SystemExit 1), logged s [Ran toplevel_cmd None]).
Proof.
  unfold status, Cli.get_git_info, try_except, bind.
  rewrite run_command_checked. fold toplevel_cmd.
  destruct (returncode (spawn e toplevel_cmd None) =? 0)%Z; [|reflexivity].
  rewrite run_command_checked, logged_logged. fold current_branch_cmd.
  destruct (returncode (spawn e current_branch_cmd None) =? 0)%Z; reflexivity.
Qed.




(** Nor is the length kept within 50 by conflict resolution: a generated
    name of 50 characters that is taken, and not reused, comes back with
    the time of day appended. *)
Lemma conflict_suffix_exceeds_limit :
  let run := Cli.setup_repository_info World.login_task None "claude" false
               World.crowded_repo World.initial in
  fst run = Ok ("/home/dev/project", "project", World.fifty ++ "-153000",
                "main", false)
  /\ String.length (World.fifty ++ "-153000") = 57%nat
  /\ Spec.valid_name (World.fifty ++ "-153000") = false.
Proof. repeat split. Qed.

(** Nor are the characters kept within [[a-z0-9-]] without an explicit
    branch: the pattern for the issue number has no [re.ASCII] flag, so
    the digits of any script are taken over as they are. *)
Lemma issue_digits_kept_verbatim :
  let run := Cli.setup_repository_info World.arabic_task None "claude" false
               World.plain_repo World.initial in
  fst run = Ok ("/home/dev/project", "project",
                "issue-" ++ Py.bytes [217; 163], "main", false)
  /\ Spec.valid_name ("issue-" ++ Py.bytes [217; 163]) = false.
Proof. split; vm_compute; reflexivity. Qed.

(** An explicit branch that exists and is not to be reused is not kept
    either: the time of day is appended to it. *)
Lemma explicit_branch_declined_gets_suffix :
  fst (Cli.setup_repository_info World.login_task (Some "Feature/X") "claude"
         false World.taken_repo World.initial)
  = Ok ("/home/dev/project", "project", "Feature/X-153000", "main", false).
Proof. vm_compute. reflexivity. Qed.

(** ** The two launchers side by side *)

(** The terminal launcher catches the failure of the process that opens
    the terminal and reports [False]. *)
Example terminal_setup_reports_failure :
  Launchers.Terminal.setup_workspace World.dev_settings "/srv/wt/fix-bug"
    "fix-bug" "Fix the bug" "claude" World.broken_terminal World.initial =
  (Ok false,
   logged World.initial
     [Ran ["osascript"; "-e";
           Launchers.Terminal.apple_script "/srv/wt/fix-bug"
             (Spec.invocation "claude" "Fix the bug")] None]).
Proof. reflexivity. Qed.

(** On a host where every tmux command succeeds the set-up returns
    [True], and the right pane receives the invocation with the task
    escaped. *)
Example tmux_setup_sends_invocation :
  let run := Launchers.Tmux.setup_workspace World.dev_settings
               "/srv/wt/fix-auth" "fix-auth" "Fix 'auth' issue" "claude"
               World.working_tmux World.initial in
  fst run = Ok true
  /\ In (Ran ["tmux"; "send-keys"; "-t"; "dev:fix-auth.1";
              "claude --dangerously-skip-permissions 'Fix '\''auth'\'' issue'";
              "Enter"] None)
        (log (snd run)).
Proof.
  split; [reflexivity|].
  vm_compute. do 5 right. left. reflexivity.
Qed.

(** * Further properties of the code *)

(** ** What a computation adds to the log *)

Section Appends.

Context {A B : Type}.
Variable P : Event -> Prop.

Lemma appends_ret (a : A) : appends P (ret a).
Proof. intros e s. exists []. split; [symmetry; apply app_nil_r | constructor]. Qed.

Lemma appends_raise (x : exn) : appends P (@raise A x).
Proof. intros e s. exists []. split; [symmetry; apply app_nil_r | constructor]. Qed.

Lemma appends_ask (f : Env -> A) : appends P (ask f).
Proof. intros e s. exists []. split; [symmetry; apply app_nil_r | constructor]. Qed.

Lemma appends_bind (m : M A) (k : A -> M B) :
  appends P m -> (forall a, appends P (k a)) -> appends P (bind m k).
Proof.
  intros Hm Hk e s. unfold bind.
  destruct (Hm e s) as (evs1 & Hlog1 & HP1).
  destruct (m e s) as [[a|x] s1]; cbn [snd] in *.
  - destruct (Hk a e s1) as (evs2 & Hlog2 & HP2).
    exists (evs1 ++ evs2)%list. split.
    + rewrite Hlog2, Hlog1, app_assoc. reflexivity.
    + apply Forall_app. split; assumption.
  - exists evs1. split; assumption.
Qed.

Lemma appends_try (m : M A) caught (h : exn -> M A) :
  appends P m -> (forall x, appends P (h x)) -> appends P (try_except m caught h).
Proof.
  intros Hm Hh e s. unfold try_except.
  destruct (Hm e s) as (evs1 & Hlog1 & HP1).
  destruct (m e s) as [[a|x] s1]; cbn [snd] in *.
  - exists evs1. split; assumption.
  - destruct (caught x).
    + destruct (Hh x e s1) as (evs2 & Hlog2 & HP2).
      exists (evs1 ++ evs2)%list. split.
      * rewrite Hlog2, Hlog1, app_assoc. reflexivity.
      * apply Forall_app. split; assumption.
    + exists evs1. split; assumption.
Qed.

End Appends.

Lemma appends_subprocess_run (P : Event -> Prop) cmd check cwd :
  P (Ran cmd cwd) -> appends P (subprocess_run cmd check cwd).
Proof.
  intros HP e s. exists [Ran cmd cwd]. split; [|repeat constructor; exact HP].
  unfold subprocess_run.
  destruct (check && negb (returncode (spawn e cmd cwd) =? 0)%Z); reflexivity.
Qed.

Lemma appends_run_command (P : Event -> Prop) cmd capture check cwd :
  P (Ran cmd cwd) -> appends P (Cli.run_command cmd capture check cwd).
Proof.
  intros HP. unfold Cli.run_command.
  apply appends_try.
  - apply appends_bind; [apply appends_subprocess_run, HP|].
    intros r. destruct capture; apply appends_ret.
  - intros x. destruct check; [apply appends_raise | apply appends_ret].
Qed.

Lemma appends_confirm (P : Event -> Prop) text :
  P (Asked text) -> appends P (confirm text).
Proof.
  intros HP e s. exists [Asked text]. split; [reflexivity|].
  repeat constructor. exact HP.
Qed.

Lemma appends_now (P : Event -> Prop) : appends P now.
Proof. intros e s. exists []. split; [symmetry; apply app_nil_r | constructor]. Qed.

Lemma appends_which (P : Event -> Prop) name : appends P (shutil_which name).
Proof. intros e s. exists []. split; [symmetry; apply app_nil_r | constructor]. Qed.

Lemma appends_weaken {A} (P Q : Event -> Prop) (m : M A) :
  (forall ev, P ev -> Q ev) -> appends P m -> appends Q m.
Proof.
  intros HPQ Hm e s. destruct (Hm e s) as (evs & Hlog & HP).
  exists evs. split; [exact Hlog|].
  eapply Forall_impl; [exact HPQ | exact HP].
Qed.

(** ** Running a command *)

(** X1: [run_command] runs exactly one process.  Unchecked, it never
    raises, whatever the exit status; checked, it raises
    [CalledProcessError] with the status and the command exactly when the
    status is not 0.  What it returns otherwise is the stripped output when
    captured, and [None] when not. *)
Theorem run_command_exit_status cmd (capture check : bool) cwd e s :
  let value := if capture then Some (Py.strip (stdout (spawn e cmd cwd)))
               else None in
  snd (Cli.run_command cmd capture check cwd e s) = logged s [Ran cmd cwd]
  /\ (check = false -> fst (Cli.run_command cmd capture check cwd e s) = Ok value)
  /\ (status e cmd cwd = 0%Z ->
      fst (Cli.run_command cmd capture check cwd e s) = Ok value)
  /\ (check = true -> status e cmd cwd <> 0%Z ->
      fst (Cli.run_command cmd capture check cwd e s) =
        Raise (CalledProcessError (status e cmd cwd) cmd)).
Proof.
  unfold status. cbv zeta. destruct check.
  - rewrite run_command_checked. repeat split.
    + discriminate.
    + intros H. rewrite H. reflexivity.
    + intros _ H. apply Z.eqb_neq in H. rewrite H. reflexivity.
  - rewrite run_command_unchecked. repeat split. discriminate.
Qed.

Lemma run_command_exit_status_witness :
  fst (Cli.run_command ["git"; "fetch"; "origin"] true false None
         World.broken_tmux World.initial) = Ok (Some EmptyString)
  /\ fst (Cli.run_command ["git"; "fetch"; "origin"] false true None
            World.working_tmux World.initial) = Ok None
  /\ fst (Cli.run_command ["git"; "fetch"; "origin"] true true None
            World.broken_tmux World.initial) =
     Raise (CalledProcessError 1 ["git"; "fetch"; "origin"]).
Proof.
  split; [|split].
  - exact (proj1 (proj2 (run_command_exit_status ["git"; "fetch"; "origin"]
                           true false None World.broken_tmux World.initial))
             eq_refl).
  - exact (proj1 (proj2 (proj2 (run_command_exit_status
                                  ["git"; "fetch"; "origin"] false true None
                                  World.working_tmux World.initial)))
             eq_refl).
  - apply (proj2 (proj2 (proj2 (run_command_exit_status
                                  ["git"; "fetch"; "origin"] true true None
                                  World.broken_tmux World.initial))));
      [reflexivity | discriminate].
Defined.

(** ** Probing and resolving branch names *)

(** X2: the existence probe never raises and asks nothing.  It queries
    the local ref first and [origin/<name>] only when the local query
    fails; the answer is whether one of the two queries run exits with
    status 0. *)
Theorem branch_exists_probes name e s :
  let local := Cli.verify_cmd name in
  let remote := Cli.verify_cmd ("origin/" ++ name) in
  Cli.branch_exists name e s =
    (Ok ((status e local None =? 0)%Z || (status e remote None =? 0)%Z),
     logged s (Ran local None ::
               (if (status e local None =? 0)%Z then []
                else [Ran remote None])))
  /\ prompts (snd (Cli.branch_exists name e s)) = prompts s.
Proof.
  cbv zeta. rewrite branch_exists_run. split; [reflexivity|].
  apply prompts_probed.
Qed.

(** The whole of [handle_branch_conflict]. *)
Lemma handle_branch_conflict_run base e s :
  Cli.handle_branch_conflict base e s =
  if Spec.exists_branch e base
  then if answers e (prompts s)
       then (Ok (base, true),
             logged s (Spec.probe_events e base ++ [conflict_question]))
       else (Ok (Spec.fresh_name e base (ticks s), false),
             {| log := (log s ++ Spec.probe_events e base
                        ++ [conflict_question]
                        ++ flat_map (Spec.probe_events e)
                             (Spec.probed e
                                (Spec.candidates base (clock e (ticks s)))))%list;
                ticks := match Spec.first_free e
                                 (Spec.candidates base (clock e (ticks s))) with
                         | Some _ => S (ticks s)
                         | None => S (S (ticks s))
                         end |})
  else (Ok (base, false), logged s (Spec.probe_events e base)).
Proof.
  unfold Cli.handle_branch_conflict, bind.
  rewrite branch_exists_run.
  destruct (Spec.exists_branch e base); cbn [negb]; [|reflexivity].
  rewrite confirm_run, prompts_probed.
  destruct (answers e (prompts s)).
  - unfold ret. rewrite logged_logged. reflexivity.
  - unfold now. cbn [ticks log logged].
    rewrite branch_exists_run.
    unfold Spec.fresh_name, Spec.candidates, conflict_question.
    cbn [Spec.first_free Spec.probed flat_map].
    destruct (Spec.exists_branch e (base ++ "-" ++ strftime_HMS (clock e (ticks s))));
      cbn [negb].
    + rewrite try_numbers_run.
      destruct (Spec.first_free e (map (Spec.numbered base) (seq 1 99)));
        cbn [option_map]; unfold ret, logged; cbn [log ticks];
        repeat rewrite <- app_assoc; reflexivity.
    + unfold ret, logged; cbn [log ticks flat_map].
      repeat rewrite <- app_assoc. rewrite app_nil_r. reflexivity.
Qed.

Lemma prompts_app s evs :
  prompts (logged s evs) = (prompts s + List.length (filter is_asked evs))%nat.
Proof.
  unfold prompts, logged. cbn [log]. rewrite filter_app, List.length_app.
  reflexivity.
Qed.

Lemma filter_asked_probes e cs :
  filter is_asked (flat_map (Spec.probe_events e) cs) = [].
Proof.
  induction cs as [|c cs IH]; [reflexivity|].
  cbn [flat_map]. rewrite filter_app, IH, app_nil_r.
  unfold Spec.probe_events. destruct (Spec.verifies e c); reflexivity.
Qed.

Lemma filter_asked_probe e c : filter is_asked (Spec.probe_events e c) = [].
Proof. unfold Spec.probe_events. destruct (Spec.verifies e c); reflexivity. Qed.

(** X3: when the branch exists and the user agrees to reuse it, the
    result is that name with [is_existing = True]; the user was asked
    once, no candidate was probed and the clock was not read. *)
Theorem handle_branch_conflict_reuse base e s
    (Hexists : Spec.exists_branch e base = true)
    (Hagree : answers e (prompts s) = true) :
  Cli.handle_branch_conflict base e s =
    (Ok (base, true),
     logged s (Spec.probe_events e base ++ [conflict_question]))
  /\ prompts (snd (Cli.handle_branch_conflict base e s)) = S (prompts s)
  /\ ticks (snd (Cli.handle_branch_conflict base e s)) = ticks s.
Proof.
  rewrite handle_branch_conflict_run, Hexists, Hagree.
  split; [reflexivity|]. split; [|reflexivity].
  cbn [snd]. rewrite prompts_app, filter_app, filter_asked_probe.
  cbn. lia.
Qed.

Lemma handle_branch_conflict_reuse_witness :
  fst (Cli.handle_branch_conflict "feature" (World.agreeing World.feature_repo)
         World.initial) = Ok ("feature", true)
  /\ prompts (snd (Cli.handle_branch_conflict "feature"
                     (World.agreeing World.feature_repo) World.initial)) = 1%nat.
Proof.
  destruct (handle_branch_conflict_reuse "feature"
              (World.agreeing World.feature_repo) World.initial)
    as (H1 & H2 & _); [reflexivity | reflexivity |].
  split; [rewrite H1; reflexivity | exact H2].
Defined.

Lemma app_hyphen_differs (base suffix : string) : base ++ "-" ++ suffix <> base.
Proof.
  intros H. apply (f_equal String.length) in H.
  rewrite !length_app in H. cbn [String.length] in H. lia.
Qed.

(** X4: [handle_branch_conflict] never raises.  It asks the user exactly
    when the desired name exists, and then once.  [is_existing] is [True]
    only for the desired name itself, and only if it exists; any other
    result is the desired name followed by a hyphen and 1 to 15 digits and
    hyphens, so a declined name never comes back unchanged. *)
Theorem handle_branch_conflict_total base e s :
  exists name is_existing s',
    Cli.handle_branch_conflict base e s = (Ok (name, is_existing), s')
    /\ prompts s' =
         (prompts s + if Spec.exists_branch e base then 1 else 0)%nat
    /\ (is_existing = true ->
        name = base /\ Spec.exists_branch e base = true
        /\ answers e (prompts s) = true)
    /\ (is_existing = false ->
        (name = base /\ Spec.exists_branch e base = false)
        \/ (name <> base
            /\ exists suffix, name = base ++ "-" ++ suffix
                              /\ Spec.suffix_ok suffix = true)).
Proof.
  rewrite handle_branch_conflict_run.
  destruct (Spec.exists_branch e base) eqn:Hex.
  - destruct (answers e (prompts s)) eqn:Hans.
    + do 3 eexists. split; [reflexivity|]. split; [|split].
      * rewrite prompts_app, filter_app, filter_asked_probe. reflexivity.
      * auto.
      * discriminate.
    + do 3 eexists. split; [reflexivity|]. split; [|split].
      * unfold prompts. cbn [log].
        rewrite !filter_app, filter_asked_probe, filter_asked_probes.
        rewrite !List.length_app. cbn. lia.
      * discriminate.
      * intros _. right.
        destruct (fresh_name_suffix e base (ticks s)) as (suffix & Heq & Hok).
        rewrite Heq. split; [apply app_hyphen_differs|].
        exists suffix. split; [reflexivity | exact Hok].
  - do 3 eexists. split; [reflexivity|]. split; [|split].
    + rewrite prompts_app, filter_asked_probe. cbn. lia.
    + discriminate.
    + intros _. left. split; reflexivity.
Qed.

Lemma first_free_is_free e cs c :
  Spec.first_free e cs = Some c -> Spec.exists_branch e c = false.
Proof.
  induction cs as [|c0 cs IH]; simpl; [discriminate|].
  destruct (Spec.exists_branch e c0) eqn:E; [exact IH|].
  intros H. injection H as <-. exact E.
Qed.

Lemma first_free_none e cs :
  Spec.first_free e cs = None ->
  Forall (fun c => Spec.exists_branch e c = true) cs.
Proof.
  induction cs as [|c0 cs IH]; simpl; [constructor|].
  destruct (Spec.exists_branch e c0) eqn:E; [|discriminate].
  intros H. constructor; auto.
Qed.

(** X5: when reuse is declined, the name returned has been probed and
    does not exist, unless all of the 100 candidates exist; only then is
    the unprobed [<name>-<YYYYMMDD-HHMMSS>] returned. *)
Theorem handle_branch_conflict_fresh_is_free base e s
    (Hexists : Spec.exists_branch e base = true)
    (Hdecline : answers e (prompts s) = false) :
  exists name,
    fst (Cli.handle_branch_conflict base e s) = Ok (name, false)
    /\ ((Spec.exists_branch e name = false
         /\ In name (Spec.candidates base (clock e (ticks s))))
        \/ (Forall (fun c => Spec.exists_branch e c = true)
              (Spec.candidates base (clock e (ticks s)))
            /\ name = base ++ "-"
                      ++ strftime_Ymd_HMS (clock e (S (ticks s))))).
Proof.
  rewrite handle_branch_conflict_run, Hexists, Hdecline. cbn [fst].
  eexists. split; [reflexivity|].
  unfold Spec.fresh_name.
  destruct (Spec.first_free e (Spec.candidates base (clock e (ticks s))))
    as [c|] eqn:Hc.
  - left. split; [eapply first_free_is_free | eapply first_free_in]; exact Hc.
  - right. split; [apply first_free_none, Hc | reflexivity].
Qed.

Lemma handle_branch_conflict_fresh_is_free_witness :
  exists name,
    fst (Cli.handle_branch_conflict "feature" World.feature_repo World.initial)
    = Ok (name, false)
    /\ Spec.exists_branch World.feature_repo name = false.
Proof.
  destruct (handle_branch_conflict_fresh_is_free "feature" World.feature_repo
              World.initial) as (name & Hrun & Hfree);
    [reflexivity | reflexivity |].
  exists name. split; [exact Hrun|].
  destruct Hfree as [[Hfree _] | [Hall _]]; [exact Hfree|].
  exfalso. apply Forall_forall with (x := "feature-1") in Hall.
  - discriminate Hall.
  - right. left. reflexivity.
Defined.

Lemma appends_branch_exists name : appends is_probe (Cli.branch_exists name).
Proof.
  unfold Cli.branch_exists.
  apply appends_try.
  - apply appends_bind; [|intros; apply appends_ret].
    apply appends_run_command. eexists. reflexivity.
  - intros _. apply appends_try; [|intros; apply appends_ret].
    apply appends_bind; [|intros; apply appends_ret].
    apply appends_run_command. eexists. reflexivity.
Qed.

Lemma appends_try_numbers base range :
  appends is_probe (Cli.try_numbers base range).
Proof.
  induction range as [|i rest IH]; cbn [Cli.try_numbers].
  - apply appends_ret.
  - apply appends_bind; [apply appends_branch_exists|].
    intros taken. destruct taken; cbn [negb]; [exact IH | apply appends_ret].
Qed.

Lemma appends_first_verified branches :
  appends is_probe (Cli.first_verified branches).
Proof.
  induction branches as [|b rest IH]; cbn [Cli.first_verified].
  - apply appends_ret.
  - apply appends_try; [|intros; exact IH].
    apply appends_bind; [|intros; apply appends_ret].
    apply appends_run_command. eexists. reflexivity.
Qed.

Lemma appends_handle_branch_conflict base :
  appends (fun ev => is_probe ev \/ ev = conflict_question)
    (Cli.handle_branch_conflict base).
Proof.
  assert (Hprobe : forall name,
             appends (fun ev => is_probe ev \/ ev = conflict_question)
               (Cli.branch_exists name)).
  { intros name. eapply appends_weaken; [|apply appends_branch_exists].
    intros ev H. left. exact H. }
  unfold Cli.handle_branch_conflict.
  apply appends_bind; [apply Hprobe|]. intros taken.
  destruct taken; cbn [negb]; [|apply appends_ret].
  apply appends_bind; [apply appends_confirm; right; reflexivity|].
  intros use_existing. destruct use_existing; [apply appends_ret|].
  apply appends_bind; [apply appends_now|]. intros d.
  apply appends_bind; [apply Hprobe|]. intros taken.
  destruct taken; cbn [negb]; [|apply appends_ret].
  apply appends_bind.
  - eapply appends_weaken; [|apply appends_try_numbers].
    intros ev H. left. exact H.
  - intros found. destruct found; [apply appends_ret|].
    apply appends_bind; [apply appends_now | intros; apply appends_ret].
Qed.

Lemma appends_get_base_branch custom_base :
  appends is_probe (Cli.get_base_branch custom_base).
Proof.
  unfold Cli.get_base_branch.
  apply appends_bind.
  - destruct custom_base as [base|]; [|apply appends_ret].
    destruct (Py.truthy base); [|apply appends_ret].
    apply appends_try; [|intros; apply appends_ret].
    apply appends_bind; [|intros; apply appends_ret].
    apply appends_run_command. eexists. reflexivity.
  - intros custom. destruct custom; [apply appends_ret|].
    apply appends_bind; [apply appends_first_verified|].
    intros found. destruct found; apply appends_ret.
Qed.

(** X6: the functions that resolve names only ever query.  The only
    processes [branch_exists], [handle_branch_conflict] and
    [get_base_branch] run are [git rev-parse --verify <ref>]; the only
    other thing [handle_branch_conflict] does is to ask about reuse.  So
    none of them creates, deletes or moves a branch. *)
Theorem resolution_only_queries :
  (forall name, appends is_probe (Cli.branch_exists name))
  /\ (forall base,
        appends (fun ev => is_probe ev \/ ev = conflict_question)
          (Cli.handle_branch_conflict base))
  /\ (forall custom_base, appends is_probe (Cli.get_base_branch custom_base)).
Proof.
  split; [exact appends_branch_exists|].
  split; [exact appends_handle_branch_conflict | exact appends_get_base_branch].
Qed.

(** ** Repository information *)

(** X7: [get_git_info] outside a repository (the top-level query fails)
    exits with status 1 after that one query.  When the top-level query
    succeeds but [git branch --show-current] fails, the failure is not
    turned into an exit: [CalledProcessError] escapes.  When both succeed
    the result is the stripped top-level path, its last component and the
    stripped branch. *)
Theorem get_git_info_outcomes e s :
  (status e toplevel_cmd None <> 0%Z ->
   Cli.get_git_info e s =
     (Raise (SystemExit 1), logged s [Ran toplevel_cmd None]))
  /\ (status e toplevel_cmd None = 0%Z ->
      status e current_branch_cmd None <> 0%Z ->
      Cli.get_git_info e s =
        (Raise (CalledProcessError (status e current_branch_cmd None)
                  current_branch_cmd),
         logged s [Ran toplevel_cmd None; Ran current_branch_cmd None]))
  /\ (status e toplevel_cmd None = 0%Z ->
      status e current_branch_cmd None = 0%Z ->
      Cli.get_git_info e s =
        (Ok (Py.strip (stdout (spawn e toplevel_cmd None)),
             PathLib.path_name (Py.strip (stdout (spawn e toplevel_cmd None))),
             Py.strip (stdout (spawn e current_branch_cmd None))),
         logged s [Ran toplevel_cmd None; Ran current_branch_cmd None])).
Proof.
  unfold status, Cli.get_git_info, try_except, bind.
  rewrite run_command_checked. fold toplevel_cmd.
  split; [|split].
  - intros H. apply Z.eqb_neq in H. rewrite H. reflexivity.
  - intros H1 H2. rewrite H1. cbn [Z.eqb].
    rewrite run_command_checked, logged_logged. fold current_branch_cmd.
    apply Z.eqb_neq in H2. rewrite H2. reflexivity.
  - intros H1 H2. rewrite H1. cbn [Z.eqb].
    rewrite run_command_checked, logged_logged. fold current_branch_cmd.
    rewrite H2. reflexivity.
Qed.

Lemma get_git_info_outcomes_witness :
  fst (Cli.get_git_info World.empty_repo World.initial) = Raise (SystemExit 1)
  /\ fst (Cli.get_git_info World.plain_repo World.initial) =
     Ok ("/home/dev/project", "project", "main").
Proof.
  split.
  - rewrite (proj1 (get_git_info_outcomes World.empty_repo World.initial));
      [reflexivity | discriminate].
  - rewrite (proj2 (proj2 (get_git_info_outcomes World.plain_repo
                             World.initial))); reflexivity.
Defined.

(** ** The base branch *)

Lemma first_verified_run branches : forall e s,
  Cli.first_verified branches e s =
  (Ok (find (Spec.verifies e) branches),
   logged s (probes_of (verified_upto e branches))).
Proof.
  induction branches as [|b rest IH]; intros e s.
  - cbn. rewrite logged_nil. reflexivity.
  - cbn [Cli.first_verified find verified_upto probes_of map].
    unfold try_except, bind. rewrite run_command_checked.
    unfold Spec.verifies at 1 3.
    destruct (returncode (spawn e (Cli.verify_cmd b) None) =? 0)%Z.
    + reflexivity.
    + cbn [is_CalledProcessError]. rewrite IH, logged_logged. reflexivity.
Qed.

Lemma get_base_branch_run custom_base e s :
  Cli.get_base_branch custom_base e s =
  match custom_base with
  | Some base =>
      if Py.truthy base
      then if Spec.verifies e base
           then (Ok base, logged s [Ran (Cli.verify_cmd base) None])
           else (Ok (default_base e),
                 logged s (Ran (Cli.verify_cmd base) None
                           :: probes_of (verified_upto e default_bases)))
      else (Ok (default_base e),
            logged s (probes_of (verified_upto e default_bases)))
  | None => (Ok (default_base e),
             logged s (probes_of (verified_upto e default_bases)))
  end.
Proof.
  assert (Hdefault : forall s0,
    (found <- Cli.first_verified
                ["origin/main"; "origin/master"; "main"; "master"] ;;
     match found with
     | Some branch => ret branch
     | None => ret "HEAD"
     end) e s0 =
    (Ok (default_base e), logged s0 (probes_of (verified_upto e default_bases)))).
  { intros s0. unfold bind. rewrite first_verified_run.
    unfold default_base, default_bases.
    destruct (find (Spec.verifies e)
                ["origin/main"; "origin/master"; "main"; "master"]);
      reflexivity. }
  unfold Cli.get_base_branch. unfold bind at 1.
  destruct custom_base as [base|].
  - destruct (Py.truthy base).
    + unfold try_except, bind at 1. rewrite run_command_checked.
      unfold Spec.verifies at 1.
      destruct (returncode (spawn e (Cli.verify_cmd base) None) =? 0)%Z.
      * reflexivity.
      * cbn [is_CalledProcessError]. unfold ret at 1.
        rewrite Hdefault, logged_logged. reflexivity.
    + unfold ret at 1. apply Hdefault.
  - unfold ret at 1. apply Hdefault.
Qed.

(** X8: [get_base_branch] never raises, asks nothing and does not read
    the clock.  What it returns is the given base, one of the four
    defaults, or [HEAD]; and it returns [HEAD] unverified only when none of
    the four defaults verifies: anything else it returns has been accepted
    by [git rev-parse --verify]. *)
Theorem get_base_branch_verified custom_base e s :
  exists branch s',
    Cli.get_base_branch custom_base e s = (Ok branch, s')
    /\ (custom_base = Some branch \/ In branch default_bases \/ branch = "HEAD")
    /\ (Spec.verifies e branch = true
        \/ (branch = "HEAD"
            /\ Forall (fun b => Spec.verifies e b = false) default_bases))
    /\ prompts s' = prompts s /\ ticks s' = ticks s.
Proof.
  assert (Hdefault :
    (In (default_base e) default_bases \/ default_base e = "HEAD")
    /\ (Spec.verifies e (default_base e) = true
        \/ (default_base e = "HEAD"
            /\ Forall (fun b => Spec.verifies e b = false) default_bases))).
  { unfold default_base.
    destruct (find (Spec.verifies e) default_bases) as [b|] eqn:Hfind.
    - apply find_some in Hfind. destruct Hfind as [Hin Hv]. auto.
    - split; [right; reflexivity|]. right. split; [reflexivity|].
      apply Forall_forall. intros b Hin.
      exact (find_none _ _ Hfind b Hin). }
  destruct Hdefault as [Hin Hver].
  assert (Hquiet : forall bs, prompts (logged s (probes_of bs)) = prompts s).
  { intros bs. apply prompts_logged_ran.
    induction bs; [reflexivity | exact IHbs]. }
  rewrite get_base_branch_run.
  destruct custom_base as [base|].
  - destruct (Py.truthy base).
    + destruct (Spec.verifies e base) eqn:Hv.
      * do 2 eexists. split; [reflexivity|].
        split; [left; reflexivity|]. split; [left; exact Hv|].
        split; [apply (Hquiet [base]) | reflexivity].
      * do 2 eexists. split; [reflexivity|].
        split; [right; exact Hin|]. split; [exact Hver|].
        split; [apply (Hquiet (base :: _)) | reflexivity].
    + do 2 eexists. split; [reflexivity|].
      split; [right; exact Hin|]. split; [exact Hver|].
      split; [apply Hquiet | reflexivity].
  - do 2 eexists. split; [reflexivity|].
    split; [right; exact Hin|]. split; [exact Hver|].
    split; [apply Hquiet | reflexivity].
Qed.

(** X9: a non-empty base that verifies is returned after that single
    query.  Otherwise the result is the first of [origin/main],
    [origin/master], [main], [master] that verifies, and [HEAD] when none
    does. *)
Theorem get_base_branch_precedence custom_base e s :
  (forall base, custom_base = Some base -> Py.truthy base = true ->
     Spec.verifies e base = true ->
     Cli.get_base_branch custom_base e s =
       (Ok base, logged s [Ran (Cli.verify_cmd base) None]))
  /\ ((forall base, custom_base = Some base -> Py.truthy base = true ->
         Spec.verifies e base = false) ->
      fst (Cli.get_base_branch custom_base e s) =
        Ok (match find (Spec.verifies e)
                    ["origin/main"; "origin/master"; "main"; "master"] with
            | Some branch => branch
            | None => "HEAD"
            end)).
Proof.
  rewrite get_base_branch_run. split.
  - intros base -> Ht Hv. rewrite Ht, Hv. reflexivity.
  - intros H. destruct custom_base as [base|]; [|reflexivity].
    destruct (Py.truthy base) eqn:Ht; [|reflexivity].
    rewrite (H base eq_refl Ht). reflexivity.
Qed.

Lemma get_base_branch_precedence_witness :
  fst (Cli.get_base_branch (Some "release") World.main_repo World.initial)
    = Ok "release"
  /\ fst (Cli.get_base_branch (Some "develop") World.main_repo World.initial)
     = Ok "main"
  /\ fst (Cli.get_base_branch None World.empty_repo World.initial) = Ok "HEAD".
Proof.
  split; [|split].
  - rewrite (proj1 (get_base_branch_precedence (Some "release")
                      World.main_repo World.initial)
               "release" eq_refl eq_refl eq_refl).
    reflexivity.
  - apply (proj2 (get_base_branch_precedence (Some "develop")
                    World.main_repo World.initial)).
    intros base H _. injection H as <-. reflexivity.
  - apply (proj2 (get_base_branch_precedence None World.empty_repo
                    World.initial)).
    intros base H. discriminate H.
Defined.

(** ** Creating the worktree *)

(** X10: [create_worktree] never raises: it returns [True] exactly when
    [git worktree add] exits with status 0.  It always fetches first, and
    the status of the fetch does not matter.  For an existing branch those
    are the only two processes (no [-b], no base branch, no push); for a
    new branch the push follows a successful [add], in the new worktree,
    and its status does not matter. *)
Theorem create_worktree_outcome path branch_name base_branch
    (is_existing : bool) e s :
  let add := if is_existing then add_existing_cmd path branch_name
             else add_new_cmd path branch_name base_branch in
  Cli.create_worktree path branch_name base_branch is_existing e s =
    (Ok (status e add None =? 0)%Z,
     logged s (Ran fetch_cmd None :: Ran add None ::
               (if is_existing || negb (status e add None =? 0)%Z then []
                else [Ran (push_cmd branch_name) (Some path)]))).
Proof.
  unfold status, Cli.create_worktree, Cli.run_command_with_spinner,
    try_except, bind.
  rewrite run_command_unchecked. fold fetch_cmd.
  destruct is_existing; cbv zeta; cbn [orb].
  - rewrite run_command_checked, logged_logged.
    fold (add_existing_cmd path branch_name).
    destruct (returncode (spawn e (add_existing_cmd path branch_name) None) =? 0)%Z;
      reflexivity.
  - rewrite run_command_checked, logged_logged.
    fold (add_new_cmd path branch_name base_branch).
    destruct (returncode (spawn e (add_new_cmd path branch_name base_branch) None) =? 0)%Z;
      cbn [negb]; [|reflexivity].
    rewrite run_command_unchecked, logged_logged. reflexivity.
Qed.

(** ** From the task to a branch *)

Lemma appends_get_git_info : appends is_resolution Cli.get_git_info.
Proof.
  unfold Cli.get_git_info.
  apply appends_bind.
  - apply appends_try; [|intros; apply appends_raise].
    apply appends_run_command. left. reflexivity.
  - intros [root|]; [|apply appends_raise].
    apply appends_bind.
    + apply appends_run_command. right. left. reflexivity.
    + intros [cur|]; [apply appends_ret | apply appends_raise].
Qed.

Lemma ai_query_not_resolution tool task :
  ~ is_resolution (Ran (ai_query tool task) None).
Proof.
  unfold is_resolution, is_probe, ai_query, toplevel_cmd, current_branch_cmd,
    conflict_question, Cli.verify_cmd.
  intros [H | [H | [[ref H] | H]]]; discriminate H.
Qed.

(** X11: outside a git repository [setup_repository_info] exits with
    status 1 after the one failed query: the AI tool is not run and
    nothing is asked. *)
Theorem setup_repository_info_outside_repo task branch tool verbose e s :
  status e toplevel_cmd None <> 0%Z ->
  Cli.setup_repository_info task branch tool verbose e s =
    (Raise (SystemExit 1), logged s [Ran toplevel_cmd None]).
Proof.
  intros H. apply Z.eqb_neq in H.
  unfold Cli.setup_repository_info, bind.
  rewrite get_git_info_run, H. reflexivity.
Qed.

Lemma setup_repository_info_outside_repo_witness :
  Cli.setup_repository_info World.login_task None "claude" false
    World.chatty_ai World.initial =
  (Raise (SystemExit 1), logged World.initial [Ran toplevel_cmd None]).
Proof.
  apply setup_repository_info_outside_repo. discriminate.
Defined.

(** X12: with a non-empty explicit branch the AI tool is never run:
    whatever happens, all that [setup_repository_info] does is to query
    git and, at most, to ask about reuse. *)
Theorem setup_repository_info_explicit_branch task branch tool verbose e s :
  Py.truthy branch = true ->
  exists evs,
    log (snd (Cli.setup_repository_info task (Some branch) tool verbose e s))
    = (log s ++ evs)%list
    /\ Forall is_resolution evs
    /\ ~ In (Ran (ai_query tool task) None) evs.
Proof.
  intros Hb.
  assert (Happ : appends is_resolution
                   (Cli.setup_repository_info task (Some branch) tool verbose)).
  { unfold Cli.setup_repository_info. rewrite Hb.
    apply appends_bind; [apply appends_get_git_info|].
    intros [[root repo] cur].
    apply appends_bind; [apply appends_ask|]. intros dir.
    apply appends_bind; [apply appends_ret|]. intros name.
    apply appends_bind.
    - eapply appends_weaken; [|apply appends_handle_branch_conflict].
      intros ev [H|H]; right; right; [left | right]; exact H.
    - intros [n ie]. apply appends_ret. }
  destruct (Happ e s) as (evs & Hlog & Hall).
  exists evs. split; [exact Hlog|]. split; [exact Hall|].
  intros Hin. rewrite Forall_forall in Hall.
  exact (ai_query_not_resolution tool task (Hall _ Hin)).
Qed.

Lemma setup_repository_info_explicit_branch_witness :
  exists evs,
    log (snd (Cli.setup_repository_info World.login_task (Some "Feature/X")
                "claude" false World.helpful_repo World.initial))
    = ([] ++ evs)%list
    /\ ~ In (Ran (ai_query "claude" World.login_task) None) evs.
Proof.
  destruct (setup_repository_info_explicit_branch World.login_task "Feature/X"
              "claude" false World.helpful_repo World.initial eq_refl)
    as (evs & Hlog & _ & Hnot).
  exists evs. split; [exact Hlog | exact Hnot].
Defined.

Lemma strftime_Ymd_HMS_length d : String.length (strftime_Ymd_HMS d) = 15%nat.
Proof.
  unfold strftime_Ymd_HMS, strftime_HMS.
  rewrite !length_app, !pad2_length, pad4_length. reflexivity.
Qed.



(** X14: the exit status of the AI tool is ignored: two hosts on which
    the tool prints the same text, and whose clocks agree, give the same
    branch name, whatever the tool's exit status on either. *)
Theorem generate_branch_name_ignores_status task tool verbose e e' s :
  stdout (spawn e (ai_query tool task) None) =
  stdout (spawn e' (ai_query tool task) None) ->
  clock e (ticks s) = clock e' (ticks s) ->
  fst (Cli.generate_branch_name task tool verbose e s) =
  fst (Cli.generate_branch_name task tool verbose e' s).
Proof.
  intros Hout Hclock.
  rewrite !generate_branch_name_run. cbv zeta.
  unfold Spec.ai_name, Spec.ai_answer. fold (ai_query tool task).
  rewrite Hout, Hclock.
  destruct (3 <=? _)%nat; [reflexivity|].
  destruct (Py.re_search_issue task); reflexivity.
Qed.

Lemma generate_branch_name_ignores_status_witness :
  status World.chatty_ai (ai_query "claude" World.login_task) None = 0%Z
  /\ status World.failing_ai (ai_query "claude" World.login_task) None = 2%Z
  /\ fst (Cli.generate_branch_name World.login_task "claude" false
            World.chatty_ai World.initial) =
     fst (Cli.generate_branch_name World.login_task "claude" false
            World.failing_ai World.initial).
Proof.
  split; [reflexivity|]. split; [reflexivity|].
  apply generate_branch_name_ignores_status; reflexivity.
Defined.

(** ** Launchers on offer *)

Lemma get_best_available_launcher_run settings project_path e s :
  Launchers.get_best_available_launcher settings project_path e s =
  (Ok (Spec.best e (launcher settings)), s).
Proof.
  unfold Launchers.get_best_available_launcher, try_except, bind.
  rewrite get_launcher_run. unfold Spec.best, Spec.registered.
  destruct (String.eqb (launcher settings) "tmux") eqn:Etmux.
  - apply String.eqb_eq in Etmux. rewrite Etmux.
    change (Spec.available e "tmux") with (Spec.tmux_available e).
    rewrite is_available_run. cbn [orb andb].
    destruct (Spec.tmux_available e); [reflexivity|].
    unfold ret at 1. rewrite first_available_run.
    destruct (find (Spec.available e) ["tmux"; "terminal"]); reflexivity.
  - destruct (String.eqb (launcher settings) "terminal") eqn:Eterm.
    + apply String.eqb_eq in Eterm. rewrite Eterm.
      change (Spec.available e "terminal") with (Spec.terminal_available e).
      rewrite is_available_run. cbn [orb andb].
      destruct (Spec.terminal_available e); [reflexivity|].
      unfold ret at 1. rewrite first_available_run.
      destruct (find (Spec.available e) ["tmux"; "terminal"]); reflexivity.
    + cbn [orb andb is_ValueError]. unfold ret at 1.
      rewrite first_available_run.
      destruct (find (Spec.available e) ["tmux"; "terminal"]); reflexivity.
Qed.

(** X15: [get_available_launchers] never raises and changes nothing.  It
    lists exactly the launchers whose [is_available] answers [True], tmux
    before terminal, and [get_launcher] accepts every name it lists. *)
Theorem get_available_launchers_sound settings e s :
  exists (tmux_ok terminal_ok : bool),
    Launchers.tmux_is_available e s = (Ok tmux_ok, s)
    /\ Launchers.terminal_is_available e s = (Ok terminal_ok, s)
    /\ Launchers.get_available_launchers settings e s =
         (Ok ((if tmux_ok then ["tmux"] else [])
              ++ (if terminal_ok then ["terminal"] else []))%list, s)
    /\ (forall names name,
          fst (Launchers.get_available_launchers settings e s) = Ok names ->
          In name names ->
          exists l, Launchers.get_launcher name settings e s = (Ok l, s)
                    /\ Launchers.is_available l e s = (Ok true, s)).
Proof.
  exists (Spec.tmux_available e), (Spec.terminal_available e).
  split; [apply tmux_is_available_run|].
  split; [apply terminal_is_available_run|].
  assert (Hrun : Launchers.get_available_launchers settings e s =
                 (Ok ((if Spec.tmux_available e then ["tmux"] else [])
                      ++ (if Spec.terminal_available e then ["terminal"] else []))%list,
                  s)).
  { rewrite get_available_launchers_run. cbn [filter].
    change (Spec.available e "tmux") with (Spec.tmux_available e).
    change (Spec.available e "terminal") with (Spec.terminal_available e).
    destruct (Spec.tmux_available e), (Spec.terminal_available e); reflexivity. }
  split; [exact Hrun|].
  intros names name Hnames Hin. rewrite Hrun in Hnames. injection Hnames as <-.
  apply in_app_or in Hin. destruct Hin as [Hin | Hin].
  - destruct (Spec.tmux_available e) eqn:Ht; [|destruct Hin].
    destruct Hin as [<- | []].
    eexists. split; [reflexivity|]. rewrite is_available_run, Ht. reflexivity.
  - destruct (Spec.terminal_available e) eqn:Ht; [|destruct Hin].
    destruct Hin as [<- | []].
    eexists. split; [reflexivity|]. rewrite is_available_run, Ht. reflexivity.
Qed.

Lemma get_available_launchers_sound_witness :
  exists l,
    Launchers.get_launcher "tmux" World.dev_settings World.working_tmux
      World.initial = (Ok l, World.initial)
    /\ Launchers.is_available l World.working_tmux World.initial
       = (Ok true, World.initial).
Proof.
  destruct (get_available_launchers_sound World.dev_settings World.working_tmux
              World.initial) as (t & w & _ & _ & _ & H).
  apply (H ["tmux"] "tmux"); [reflexivity | left; reflexivity].
Defined.

(** X16: whatever the preferred identifier, [get_best_available_launcher]
    returns [tmux] or [terminal], so [get_launcher] accepts its result;
    and whenever some launcher is available, the one returned is
    available. *)
Theorem get_best_available_launcher_sound settings project_path e s :
  exists name,
    Launchers.get_best_available_launcher settings project_path e s
    = (Ok name, s)
    /\ (name = "tmux" \/ name = "terminal")
    /\ (exists l, Launchers.get_launcher name settings e s = (Ok l, s))
    /\ (forall names,
          fst (Launchers.get_available_launchers settings e s) = Ok names ->
          names <> [] -> In name names).
Proof.
  rewrite get_best_available_launcher_run.
  exists (Spec.best e (launcher settings)). split; [reflexivity|].
  assert (Hcases :
    (Spec.best e (launcher settings) = "tmux"
     \/ Spec.best e (launcher settings) = "terminal")
    /\ (filter (Spec.available e) ["tmux"; "terminal"] <> [] ->
        In (Spec.best e (launcher settings))
           (filter (Spec.available e) ["tmux"; "terminal"]))).
  { unfold Spec.best.
    destruct (Spec.registered (launcher settings)
              && Spec.available e (launcher settings)) eqn:Hp.
    - apply andb_prop in Hp. destruct Hp as [Hr Ha].
      split; [apply registered_cases, Hr|].
      intros _. apply filter_In. split; [|exact Ha].
      destruct (registered_cases _ Hr) as [-> | ->]; simpl; auto.
    - cbn [find filter].
      destruct (Spec.available e "tmux") eqn:Ht.
      + split; [left; reflexivity|]. intros _. left. reflexivity.
      + destruct (Spec.available e "terminal") eqn:Hw.
        * split; [right; reflexivity|]. intros _. left. reflexivity.
        * split; [right; reflexivity|]. intros H. contradiction H. reflexivity. }
  destruct Hcases as [Hname Hin].
  split; [exact Hname|]. split.
  - destruct Hname as [-> | ->]; eexists; reflexivity.
  - intros names Hnames Hne.
    rewrite get_available_launchers_run in Hnames. injection Hnames as <-.
    apply Hin, Hne.
Qed.

Lemma get_best_available_launcher_sound_witness :
  In "tmux" ["tmux"].
Proof.
  destruct (get_best_available_launcher_sound World.dev_settings
              "/home/dev/project" World.working_tmux World.initial)
    as (name & Hrun & _ & _ & H).
  injection Hrun as <-.
  apply (H ["tmux"]); [reflexivity | discriminate].
Defined.

(** ** Decimal numbers, printed and read back *)

















(** ** The tmux launcher *)

Lemma get_pane_base_index_value e s :
  Launchers.Tmux.get_pane_base_index e s =
  (Ok (pane_base e), logged s [Ran pane_index_cmd None]).
Proof.
  unfold Launchers.Tmux.get_pane_base_index, Launchers.run_command,
    try_except, bind, pane_base, status.
  rewrite run_command_checked. fold pane_index_cmd.
  destruct (returncode (spawn e pane_index_cmd None) =? 0)%Z;
    cbn [is_CalledProcessError]; [|reflexivity].
  cbv zeta.
  destruct (Py.truthy _); [|reflexivity].
  destruct (Py.last_item _) as [w|]; [|reflexivity].
  destruct (Py.int_of_string w); reflexivity.
Qed.



Lemma editor_of_run settings e s :
  Launchers.Tmux.editor_of settings e s = (Ok (editor_for settings e), s).
Proof.
  unfold Launchers.Tmux.editor_of, editor_for, bind, ask, ret.
  destruct (Py.truthy _); [reflexivity|].
  destruct (environ e "EDITOR"); reflexivity.
Qed.

Ltac tmux_step :=
  unfold bind at 1; rewrite run_command_checked;
  match goal with
  | |- context [(returncode (spawn ?e ?c None) =? 0)%Z] =>
      destruct (returncode (spawn e c None) =? 0)%Z eqn:?;
      cbn [negb find fst]; [|reflexivity]
  end.

(** X18: with tmux installed, [setup_workspace] returns [True] exactly
    when each of its five unguarded steps (creating the session or the
    window, splitting it, sending the editor and the AI tool invocation,
    selecting the pane) exits with status 0, and otherwise lets the
    [CalledProcessError] of the first failing step escape.  An existing
    session gets a new window, never a new session; the AI tool goes to the
    pane after the editor's. *)
Theorem tmux_setup_first_failure settings path branch_name task tool e s :
  which e "tmux" = true ->
  fst (Launchers.Tmux.setup_workspace settings path branch_name task tool e s)
  = match first_failure e
            (tmux_steps settings path branch_name task tool e) with
    | None => Ok true
    | Some cmd => Raise (CalledProcessError (status e cmd None) cmd)
    end.
Proof.
  intros Hw.
  unfold Launchers.Tmux.setup_workspace, Launchers.run_command.
  unfold bind at 1. rewrite tmux_is_available_run.
  unfold Spec.tmux_available. rewrite Hw. cbn [negb].
  unfold first_failure, tmux_steps, status, has_session_cmd, new_window_cmd,
    new_session_cmd, split_window_cmd, send_keys_cmd, select_pane_cmd,
    pane_target.
  cbv zeta. cbn [find].
  unfold bind at 1. unfold try_except at 1. unfold bind at 1.
  rewrite run_command_checked.
  destruct (returncode (spawn e ["tmux"; "has-session"; "-t"; tmux_session settings] None) =? 0)%Z;
    cbn [is_CalledProcessError]; unfold ret at 1; cbn [negb].
  - tmux_step.
    unfold bind at 1. rewrite get_pane_base_index_value.
    tmux_step.
    unfold bind at 1. rewrite editor_of_run.
    tmux_step. tmux_step. tmux_step.
    reflexivity.
  - tmux_step.
    unfold bind at 1. rewrite get_pane_base_index_value.
    tmux_step.
    unfold bind at 1. rewrite editor_of_run.
    tmux_step. tmux_step. tmux_step.
    reflexivity.
Qed.

Lemma tmux_setup_first_failure_witness :
  fst (Launchers.Tmux.setup_workspace World.dev_settings "/srv/wt/fix-auth"
         "fix-auth" "Fix 'auth' issue" "claude" World.one_based_tmux
         World.initial) = Ok true
  /\ tmux_steps World.dev_settings "/srv/wt/fix-auth" "fix-auth"
       "Fix 'auth' issue" "claude" World.one_based_tmux =
     [ ["tmux"; "new-window"; "-t"; "dev:"; "-n"; "fix-auth"; "-c";
        "/srv/wt/fix-auth"];
       ["tmux"; "split-window"; "-t"; "dev:fix-auth"; "-h"; "-c";
        "/srv/wt/fix-auth"];
       ["tmux"; "send-keys"; "-t"; "dev:fix-auth.1"; "vim"; "Enter"];
       ["tmux"; "send-keys"; "-t"; "dev:fix-auth.2";
        "claude --dangerously-skip-permissions 'Fix '\''auth'\'' issue'";
        "Enter"];
       ["tmux"; "select-pane"; "-t"; "dev:fix-auth.2"] ].
Proof.
  split; [|reflexivity].
  rewrite (tmux_setup_first_failure World.dev_settings "/srv/wt/fix-auth"
             "fix-auth" "Fix 'auth' issue" "claude" World.one_based_tmux
             World.initial eq_refl).
  reflexivity.
Defined.

(** ** The terminal launcher *)

Lemma detect_editor_run cmds : forall e s,
  Launchers.Terminal.detect_editor cmds e s =
  (Ok match find (which e) cmds with
      | Some cmd => cmd
      | None => EmptyString
      end, s).
Proof.
  induction cmds as [|cmd rest IH]; intros e s; [reflexivity|].
  cbn [Launchers.Terminal.detect_editor find].
  unfold bind, shutil_which. destruct (which e cmd); [reflexivity | apply IH].
Qed.

Lemma open_editor_run settings path e s :
  Launchers.Terminal._open_editor settings path e s =
  (Ok tt, logged s (editor_events settings e path)).
Proof.
  unfold Launchers.Terminal._open_editor, editor_events, chosen_editor,
    Launchers.run_command.
  unfold bind at 1.
  destruct (Py.truthy (editor_command settings)) eqn:Hset; cbn [negb].
  - unfold ret at 1. rewrite Hset.
    unfold try_except, bind. rewrite run_command_unchecked. reflexivity.
  - rewrite detect_editor_run.
    remember (match find (which e) ["code"; "cursor"; "subl"; "atom"] with
              | Some cmd => cmd
              | None => EmptyString
              end) as ed.
    destruct (Py.truthy ed) eqn:Hfound.
    + unfold try_except, bind. rewrite run_command_unchecked. reflexivity.
    + unfold ret. rewrite logged_nil. reflexivity.
Qed.

Lemma open_terminal_run path command e s :
  Launchers.Terminal._open_terminal_with_command path command e s =
  match terminal_cmd e path command with
  | Some cmd =>
      (if (status e cmd None =? 0)%Z then Ok tt
       else Raise (CalledProcessError (status e cmd None) cmd),
       logged s [Ran cmd None])
  | None =>
      match os_name e with
      | nt => (Raise (TypeError
                 "run_command() got an unexpected keyword argument 'shell'"), s)
      | _ => (Ok tt, s)
      end
  end.
Proof.
  unfold Launchers.Terminal._open_terminal_with_command, terminal_cmd,
    Launchers.run_command, status, bind, ask, shutil_which.
  destruct (os_name e); [| |reflexivity].
  - destruct (which e "open").
    + rewrite run_command_checked.
      match goal with |- context [if ?c then _ else _] => destruct c end;
        reflexivity.
    + destruct (which e "gnome-terminal").
      * rewrite run_command_checked.
        match goal with |- context [if ?c then _ else _] => destruct c end;
          reflexivity.
      * destruct (which e "xterm"); [|reflexivity].
        rewrite run_command_checked.
        match goal with |- context [if ?c then _ else _] => destruct c end;
          reflexivity.
  - destruct (which e "wt"); [|reflexivity].
    rewrite run_command_checked.
    match goal with |- context [if ?c then _ else _] => destruct c end;
      reflexivity.
Qed.

(** The terminal launcher is available exactly when it has a terminal
    command, except on Windows, where it always counts as available. *)
Lemma terminal_available_cmd e path command :
  Spec.terminal_available e =
  match terminal_cmd e path command with
  | Some _ => true
  | None => match os_name e with nt => true | _ => false end
  end.
Proof.
  unfold Spec.terminal_available, terminal_cmd.
  destruct (os_name e); [| |reflexivity].
  - destruct (which e "open"), (which e "gnome-terminal"), (which e "xterm");
      reflexivity.
  - destruct (which e "wt"); reflexivity.
Qed.

Lemma terminal_setup_run settings path branch_name task tool e s :
  Launchers.Terminal.setup_workspace settings path branch_name task tool e s =
  match terminal_cmd e path (Launchers.Terminal.ai_cmd tool task) with
  | Some cmd =>
      if (status e cmd None =? 0)%Z
      then (Ok true, logged s (Ran cmd None :: editor_events settings e path))
      else (Ok false, logged s [Ran cmd None])
  | None =>
      match os_name e with
      | nt => (Raise (TypeError
                 "run_command() got an unexpected keyword argument 'shell'"), s)
      | _ => (Ok false, s)
      end
  end.
Proof.
  unfold Launchers.Terminal.setup_workspace. unfold bind at 1.
  rewrite terminal_is_available_run.
  rewrite (terminal_available_cmd e path (Launchers.Terminal.ai_cmd tool task)).
  cbv zeta.
  destruct (terminal_cmd e path (Launchers.Terminal.ai_cmd tool task))
    as [cmd|] eqn:Hcmd.
  - cbn [negb]. unfold try_except, bind.
    rewrite open_terminal_run, Hcmd.
    destruct (status e cmd None =? 0)%Z; [|reflexivity].
    rewrite open_editor_run, logged_logged. reflexivity.
  - destruct (os_name e) eqn:Hos; cbn [negb]; try reflexivity.
    unfold try_except, bind.
    rewrite open_terminal_run, Hcmd, Hos. reflexivity.
Qed.

(** X19: off Windows, on a host where what the terminal launcher runs
    unseen can be started ([osascript] where [open] is found, and the
    configured editor), it does not raise.  Without a terminal program it
    returns [False] and does nothing.  Otherwise it runs one terminal
    command ([osascript] before [gnome-terminal] before [xterm]): when
    that fails it returns [False] and opens no editor; when it succeeds
    it returns [True] and opens the configured editor, else the first of
    [code], [cursor], [subl], [atom] on the search path, else none, and
    the editor's exit status is ignored. *)
Theorem terminal_setup_outcome settings path branch_name task tool e s :
  os_name e <> nt ->
  (os_name e = posix -> which e "open" = true -> which e "osascript" = true) ->
  editor_found settings e ->
  Launchers.Terminal.setup_workspace settings path branch_name task tool e s =
    match terminal_cmd e path (Launchers.Terminal.ai_cmd tool task) with
    | None => (Ok false, s)
    | Some cmd =>
        if (status e cmd None =? 0)%Z
        then (Ok true, logged s (Ran cmd None :: editor_events settings e path))
        else (Ok false, logged s [Ran cmd None])
    end.
Proof.
  intros Hos _ _. rewrite terminal_setup_run.
  destruct (terminal_cmd _ _ _); [reflexivity|].
  destruct (os_name e); [reflexivity | contradiction Hos | ]; reflexivity.
Qed.

Lemma terminal_setup_outcome_witness :
  Launchers.Terminal.setup_workspace World.dev_settings "/srv/wt/fix-bug"
    "fix-bug" "Fix the bug" "claude" World.broken_terminal World.initial =
  (Ok false,
   logged World.initial
     [Ran ["osascript"; "-e";
           Launchers.Terminal.apple_script "/srv/wt/fix-bug"
             "claude --dangerously-skip-permissions 'Fix the bug'"] None])
  /\ Launchers.Terminal.setup_workspace World.dev_settings "/srv/wt/fix-bug"
       "fix-bug" "Fix the bug" "claude" World.empty_repo World.initial =
     (Ok false, World.initial)
  /\ Launchers.Terminal.setup_workspace World.code_settings "/srv/wt/fix-bug"
       "fix-bug" "Fix the bug" "claude" World.linux_desktop World.initial =
     (Ok true,
      logged World.initial
        [Ran ["xterm"; "-e";
              "cd '/srv/wt/fix-bug' && "
              ++ "claude --dangerously-skip-permissions 'Fix the bug'"
              ++ " && exec bash"] None;
         Ran ["code"; "/srv/wt/fix-bug"] None]).
Proof.
  split; [|split].
  - rewrite (terminal_setup_outcome World.dev_settings "/srv/wt/fix-bug"
               "fix-bug" "Fix the bug" "claude" World.broken_terminal
               World.initial);
      [ reflexivity | discriminate | intros _ _; reflexivity
      | intros H; discriminate H ].
  - rewrite (terminal_setup_outcome World.dev_settings "/srv/wt/fix-bug"
               "fix-bug" "Fix the bug" "claude" World.empty_repo
               World.initial);
      [ reflexivity | discriminate | intros _ H; discriminate H
      | intros H; discriminate H ].
  - rewrite (terminal_setup_outcome World.code_settings "/srv/wt/fix-bug"
               "fix-bug" "Fix the bug" "claude" World.linux_desktop
               World.initial);
      [ reflexivity | discriminate | intros _ H; discriminate H
      | intros _; reflexivity ].
Defined.



(** ** What both launchers share *)

(** X21: a launcher that reports itself unavailable sets nothing up:
    [setup_workspace] returns [False] without running a process or asking
    anything, for the tmux and for the terminal launcher alike. *)
Theorem setup_workspace_unavailable l path branch_name task tool e s :
  Launchers.is_available l e s = (Ok false, s) ->
  Launchers.setup_workspace l path branch_name task tool e s = (Ok false, s).
Proof.
  intros H. rewrite is_available_run in H. destruct l as [settings|settings].
  - injection H as H. apply tmux_setup_unavailable. exact H.
  - injection H as H. cbn [Launchers.setup_workspace].
    rewrite terminal_setup_run.
    rewrite (terminal_available_cmd e path (Launchers.Terminal.ai_cmd tool task))
      in H.
    destruct (terminal_cmd _ _ _); [discriminate H|].
    destruct (os_name e); [reflexivity | discriminate H | reflexivity].
Qed.

Lemma setup_workspace_unavailable_witness :
  Launchers.setup_workspace (Launchers.TmuxLauncher World.dev_settings)
    "/srv/wt/fix-bug" "fix-bug" "Fix the bug" "claude" World.empty_repo
    World.initial = (Ok false, World.initial)
  /\ Launchers.setup_workspace (Launchers.TerminalLauncher World.dev_settings)
       "/srv/wt/fix-bug" "fix-bug" "Fix the bug" "claude" World.empty_repo
       World.initial = (Ok false, World.initial).
Proof.
  split; apply setup_workspace_unavailable; reflexivity.
Defined.

(** ** Attaching *)

Lemma tmux_handle_attachment_run located settings path branch_name e s :
  Launchers.Tmux.handle_attachment located settings path branch_name e s =
  if tmux_auto_attach settings
  then (Ok tt,
        logged s
          (Asked (attach_question e) ::
           (if answers e (prompts s) && which e "tmux"
            then [Ran (attach_cmd located e (tmux_session settings) branch_name)
                    None]
            else [])))
  else (Ok tt, s).
Proof.
  unfold Launchers.Tmux.handle_attachment, attach_question, attach_cmd.
  destruct (tmux_auto_attach settings); cbn [negb]; [|reflexivity].
  unfold bind at 1. unfold ask at 1.
  destruct (Py.truthy_opt (environ e "TMUX")).
  - unfold bind at 1. rewrite confirm_run.
    destruct (answers e (prompts s)); cbn [andb]; [|reflexivity].
    unfold bind at 1, shutil_which at 1.
    destruct (which e "tmux"); [|reflexivity].
    unfold bind, subprocess_run. cbn [andb]. unfold ret.
    rewrite record_logged, logged_logged. reflexivity.
  - unfold bind at 1. rewrite confirm_run.
    destruct (answers e (prompts s)); cbn [andb]; [|reflexivity].
    unfold bind at 1, shutil_which at 1.
    destruct (which e "tmux"); [|reflexivity].
    unfold bind, subprocess_run. cbn [andb]. unfold ret.
    rewrite record_logged, logged_logged. reflexivity.
Qed.

(** X22: [handle_attachment] never raises.  For the terminal launcher,
    and for the tmux launcher with auto-attach off, it does nothing.  With
    auto-attach on, the tmux launcher asks one question; it runs one
    process, and only if the answer is yes and tmux is on the search path:
    [switch-client] to the window when already inside tmux, [attach]
    otherwise; the exit status of that process is ignored. *)
Theorem handle_attachment_outcome located l path branch_name e s :
  Launchers.handle_attachment located l path branch_name e s =
  match l with
  | Launchers.TerminalLauncher _ => (Ok tt, s)
  | Launchers.TmuxLauncher settings =>
      if tmux_auto_attach settings
      then (Ok tt,
            logged s
              (Asked (if Py.truthy_opt (environ e "TMUX")
                      then "Switch to workspace window?"
                      else "Attach to tmux session now?") ::
               (if answers e (prompts s) && which e "tmux"
                then [Ran (if Py.truthy_opt (environ e "TMUX")
                           then [located "tmux"; "switch-client"; "-t";
                                 tmux_session settings ++ ":" ++ branch_name]
                           else [located "tmux"; "attach"; "-t";
                                 tmux_session settings; ";"; "select-window";
                                 "-t"; branch_name]) None]
                else [])))
      else (Ok tt, s)
  end.
Proof.
  destruct l as [settings|settings]; [|reflexivity].
  cbn [Launchers.handle_attachment].
  rewrite tmux_handle_attachment_run. reflexivity.
Qed.

(** X23: [handle_launcher_attachment] raises [ValueError] for an unknown
    launcher before anything is asked.  For [tmux] with auto-attach
    configured, a user who agrees, outside tmux, gets attached to the
    session passed in, not to the configured one. *)
Theorem handle_launcher_attachment_session located loaded launcher_name
    path branch_name session e s :
  (Spec.registered launcher_name = false ->
   CliLaunch.handle_launcher_attachment located loaded launcher_name path
     branch_name session e s =
     (Raise (ValueError ("Unknown launcher: " ++ launcher_name
                         ++ ". Available: ['tmux', 'terminal']")), s))
  /\ (launcher_name = "tmux" ->
      tmux_auto_attach loaded = true ->
      Py.truthy_opt (environ e "TMUX") = false ->
      answers e (prompts s) = true ->
      which e "tmux" = true ->
      CliLaunch.handle_launcher_attachment located loaded launcher_name path
        branch_name session e s =
        (Ok tt,
         logged s [Asked "Attach to tmux session now?";
                   Ran [located "tmux"; "attach"; "-t"; session; ";";
                        "select-window"; "-t"; branch_name] None])).
Proof.
  unfold CliLaunch.handle_launcher_attachment, bind.
  rewrite get_launcher_run. split.
  - unfold Spec.registered. intros H. apply orb_false_elim in H.
    destruct H as [-> ->]. reflexivity.
  - intros -> Hauto Hout Hyes Hw. cbn [String.eqb Ascii.eqb Bool.eqb].
    cbn [Launchers.handle_attachment].
    rewrite tmux_handle_attachment_run.
    unfold attach_question, attach_cmd.
    cbn [CliLaunch.with_session tmux_auto_attach tmux_session].
    rewrite Hauto, Hout, Hyes, Hw. reflexivity.
Qed.

Lemma handle_launcher_attachment_session_witness :
  CliLaunch.handle_launcher_attachment World.usr_bin World.dev_settings
    "screen" "/srv/wt/fix-bug" "fix-bug" "frontend" World.empty_repo
    World.initial =
  (Raise (ValueError
            "Unknown launcher: screen. Available: ['tmux', 'terminal']"),
   World.initial)
  /\ CliLaunch.handle_launcher_attachment World.usr_bin World.dev_settings
       "tmux" "/srv/wt/fix-bug" "fix-bug" "frontend"
       (World.agreeing World.working_tmux) World.initial =
     (Ok tt,
      logged World.initial
        [Asked "Attach to tmux session now?";
         Ran ["/usr/bin/tmux"; "attach"; "-t"; "frontend"; ";";
              "select-window"; "-t"; "fix-bug"] None]).
Proof.
  split.
  - apply (proj1 (handle_launcher_attachment_session World.usr_bin
                    World.dev_settings "screen" "/srv/wt/fix-bug" "fix-bug"
                    "frontend" World.empty_repo World.initial)).
    reflexivity.
  - apply (proj2 (handle_launcher_attachment_session World.usr_bin
                    World.dev_settings "tmux" "/srv/wt/fix-bug" "fix-bug"
                    "frontend" (World.agreeing World.working_tmux)
                    World.initial)); reflexivity.
Defined.

(** ** An existing worktree directory *)

Lemma handle_existing_worktree_run present path (force : bool)
    branch_name base_dir repo_name ops e s :
  CliWorktree.handle_existing_worktree present path force branch_name base_dir
    repo_name ops e s =
  let removed :=
    if present (log s ++ [Ran (CliWorktree.remove_cmd path) None])%list ops path
    then (ops ++ [CliWorktree.Rmtree path])%list else ops in
  if force
  then (Ok (path, branch_name, removed),
        logged s [Ran (CliWorktree.remove_cmd path) None])
  else if answers e (prompts s)
  then (Ok (path, branch_name,
            if present (log s ++ [removal_question;
                                  Ran (CliWorktree.remove_cmd path) None])%list
                 ops path
            then (ops ++ [CliWorktree.Rmtree path])%list else ops),
        logged s [removal_question; Ran (CliWorktree.remove_cmd path) None])
  else (Ok (PathLib.joinpath (PathLib.joinpath base_dir repo_name)
              (branch_name ++ "-" ++ strftime_HMS (clock e (ticks s))),
            branch_name ++ "-" ++ strftime_HMS (clock e (ticks s)), ops),
        {| log := log s ++ [removal_question]; ticks := S (ticks s) |}).
Proof.
  unfold CliWorktree.handle_existing_worktree, Cli.run_command_with_spinner,
    CliWorktree.path_exists, removal_question.
  cbv zeta. destruct force.
  - unfold bind. rewrite run_command_unchecked. cbn [log logged].
    destruct (present _ ops path); reflexivity.
  - unfold bind at 1. rewrite confirm_run.
    destruct (answers e (prompts s)).
    + unfold bind. rewrite run_command_unchecked, logged_logged.
      cbn [log logged app].
      destruct (present _ ops path); reflexivity.
    + reflexivity.
Qed.

(** X24: without [force], a user who declines the removal loses nothing:
    no process is run and nothing is removed.  The branch gets the time of
    day appended and the path becomes
    [<base_dir>/<repo_name>/<new branch>]; whether that path exists is not
    looked at. *)
Theorem handle_existing_worktree_decline present path branch_name base_dir
    repo_name ops e s :
  answers e (prompts s) = false ->
  CliWorktree.handle_existing_worktree present path false branch_name base_dir
    repo_name ops e s =
  (Ok (PathLib.joinpath (PathLib.joinpath base_dir repo_name)
         (branch_name ++ "-" ++ strftime_HMS (clock e (ticks s))),
       branch_name ++ "-" ++ strftime_HMS (clock e (ticks s)), ops),
   {| log := log s ++ [removal_question]; ticks := S (ticks s) |}).
Proof.
  intros H. rewrite handle_existing_worktree_run, H. reflexivity.
Qed.

Lemma handle_existing_worktree_decline_witness :
  CliWorktree.handle_existing_worktree
    (World.sticky_disk ["/srv/wt/project/fix-bug"]) "/srv/wt/project/fix-bug"
    false "fix-bug" "/srv/wt" "project" [] World.empty_repo World.initial =
  (Ok ("/srv/wt/project/fix-bug-153000", "fix-bug-153000", []),
   {| log := [removal_question]; ticks := 1 |}).
Proof.
  apply (handle_existing_worktree_decline
           (World.sticky_disk ["/srv/wt/project/fix-bug"])).
  reflexivity.
Defined.

(** X25: with [force], or when the user agrees, the worktree is removed:
    [git worktree remove --force <path>] is run, whatever its exit status,
    and the directory is deleted by hand exactly when it still exists
    afterwards; path and branch come back unchanged.  With [force] nothing
    is asked. *)
Theorem handle_existing_worktree_removes present path (force : bool)
    branch_name base_dir repo_name ops e s :
  force = true \/ answers e (prompts s) = true ->
  let asked := if force then [] else [removal_question] in
  let events := (asked ++ [Ran (CliWorktree.remove_cmd path) None])%list in
  CliWorktree.handle_existing_worktree present path force branch_name base_dir
    repo_name ops e s =
  (Ok (path, branch_name,
       if present (log s ++ events)%list ops path
       then (ops ++ [CliWorktree.Rmtree path])%list else ops),
   logged s events).
Proof.
  intros H. rewrite handle_existing_worktree_run. cbv zeta.
  destruct force; [reflexivity|].
  destruct H as [H | H]; [discriminate H|]. rewrite H. reflexivity.
Qed.

Lemma handle_existing_worktree_removes_witness :
  CliWorktree.handle_existing_worktree
    (World.sticky_disk ["/srv/wt/project/fix-bug"]) "/srv/wt/project/fix-bug"
    true "fix-bug" "/srv/wt" "project" [] World.empty_repo World.initial =
  (Ok ("/srv/wt/project/fix-bug", "fix-bug",
       [CliWorktree.Rmtree "/srv/wt/project/fix-bug"]),
   logged World.initial
     [Ran (CliWorktree.remove_cmd "/srv/wt/project/fix-bug") None]).
Proof.
  apply (handle_existing_worktree_removes
           (World.sticky_disk ["/srv/wt/project/fix-bug"])
           "/srv/wt/project/fix-bug" true).
  left. reflexivity.
Defined.

(** ** Copying the environment files *)

Lemma joinpath_relative p c :
  PathLib.is_absolute c = false -> PathLib.joinpath p c = p ++ "/" ++ c.
Proof. intros H. unfold PathLib.joinpath. rewrite H. reflexivity. Qed.

(** [copy_env_files] on a disk where [keep] tells, whatever has been
    copied, which of the listed files the source directory has. *)
Lemma copy_env_files_run present source dest (keep : string -> bool)
    env_files : forall ops e s,
  Forall (fun f => PathLib.is_absolute f = false) env_files ->
  (forall f ops', In f env_files ->
     present (log s) ops' (source ++ "/" ++ f) = keep f) ->
  CliWorktree.copy_env_files present source dest env_files ops e s =
  (Ok (ops ++ map (copy_of source dest) (filter keep env_files))%list, s).
Proof.
  induction env_files as [|f rest IH]; intros ops e s Hrel Hkeep.
  - cbn [CliWorktree.copy_env_files filter map]. unfold ret.
    rewrite app_nil_r. reflexivity.
  - inversion Hrel as [|f' rest' Hf Hrest]; subst.
    cbn [CliWorktree.copy_env_files filter]. cbv zeta.
    unfold bind, CliWorktree.path_exists.
    rewrite !(joinpath_relative _ _ Hf).
    rewrite (Hkeep f ops (or_introl eq_refl)).
    destruct (keep f).
    + rewrite (IH _ e s Hrest);
        [|intros g ops' Hin; apply Hkeep; right; exact Hin].
      cbn [map]. rewrite <- app_assoc. reflexivity.
    + apply (IH _ e s Hrest).
      intros g ops' Hin. apply Hkeep. right. exact Hin.
Qed.

(** X26: [copy_env_files] runs no process and asks nothing.  For entries
    that are relative paths, and as long as copying does not change which
    of the listed files the source directory has, the copies made are
    exactly those of the entries the source directory has, one per such
    entry and in the order of the list, each to the same name in the
    destination; an entry the source directory does not have is passed
    over and the ones after it are still gone through.  (A copy is taken
    to succeed.) *)
Theorem copy_env_files_copies present source dest env_files ops e s :
  Forall (fun f => PathLib.is_absolute f = false) env_files ->
  (forall f ops', In f env_files ->
     present (log s) ops' (source ++ "/" ++ f) =
     present (log s) ops (source ++ "/" ++ f)) ->
  CliWorktree.copy_env_files present source dest env_files ops e s =
  (Ok (ops ++ map (copy_of source dest)
                (filter
                   (fun f => present (log s) ops (source ++ "/" ++ f)%string)
                   env_files))%list, s).
Proof.
  intros Hrel Hstable.
  apply (copy_env_files_run present source dest
           (fun f => present (log s) ops (source ++ "/" ++ f)));
    assumption.
Qed.

Lemma copy_env_files_copies_witness :
  CliWorktree.copy_env_files
    (World.sticky_disk ["/home/dev/project/.env.local";
                        "/home/dev/project/.envrc"])
    "/home/dev/project" "/srv/wt/project/fix-bug"
    [".env"; ".env.local"; ".env.test"; ".envrc"] []
    World.empty_repo World.initial =
  (Ok [CliWorktree.Copy2 "/home/dev/project/.env.local"
         "/srv/wt/project/fix-bug/.env.local";
       CliWorktree.Copy2 "/home/dev/project/.envrc"
         "/srv/wt/project/fix-bug/.envrc"], World.initial).
Proof.
  rewrite (copy_env_files_copies
             (World.sticky_disk ["/home/dev/project/.env.local";
                                 "/home/dev/project/.envrc"])
             "/home/dev/project" "/srv/wt/project/fix-bug"
             [".env"; ".env.local"; ".env.test"; ".envrc"] []
             World.empty_repo World.initial).
  - reflexivity.
  - repeat constructor.
  - intros f ops' _. reflexivity.
Defined.

(** An entry that is an absolute path is looked for neither in the
    source directory nor in the destination: both paths are the entry
    itself, so that the file would be copied onto itself. *)
Example joinpath_absolute_entry :
  PathLib.joinpath "/home/dev/project" "/etc/hosts" = "/etc/hosts"
  /\ PathLib.joinpath "/srv/wt/project/fix-bug" "/etc/hosts" = "/etc/hosts"
  /\ PathLib.joinpath "/home/dev/project" ".env" = "/home/dev/project/.env".
Proof. repeat split. Qed.

(** ** From the worktree to the launcher *)

Lemma create_worktree_run path branch_name base_branch (is_existing : bool)
    e s :
  Cli.create_worktree path branch_name base_branch is_existing e s =
    (Ok (status e (add_cmd is_existing path branch_name base_branch) None =? 0)%Z,
     logged s
       (Ran fetch_cmd None
        :: Ran (add_cmd is_existing path branch_name base_branch) None
        :: (if is_existing
               || negb (status e (add_cmd is_existing path branch_name
                                    base_branch) None =? 0)%Z
            then [] else [Ran (push_cmd branch_name) (Some path)]))).
Proof.
  unfold add_cmd, status, Cli.create_worktree, Cli.run_command_with_spinner,
    try_except, bind.
  rewrite run_command_unchecked. fold fetch_cmd.
  destruct is_existing; cbn [orb].
  - rewrite run_command_checked, logged_logged.
    fold (add_existing_cmd path branch_name).
    destruct (returncode (spawn e (add_existing_cmd path branch_name) None) =? 0)%Z;
      reflexivity.
  - rewrite run_command_checked, logged_logged.
    fold (add_new_cmd path branch_name base_branch).
    destruct (returncode (spawn e (add_new_cmd path branch_name base_branch) None) =? 0)%Z;
      cbn [negb]; [|reflexivity].
    rewrite run_command_unchecked, logged_logged. reflexivity.
Qed.

Lemma get_worktree_base_dir_total custom_dir e s :
  exists dir, Cli.get_worktree_base_dir custom_dir e s = (Ok dir, s).
Proof.
  unfold Cli.get_worktree_base_dir, bind, ask.
  destruct custom_dir as [dir|].
  - destruct (Py.truthy dir); [eexists; reflexivity|].
    destruct (environ e "LETS_WORKTREE_DIR") as [env_dir|];
      [destruct (Py.truthy env_dir)|]; eexists; reflexivity.
  - destruct (environ e "LETS_WORKTREE_DIR") as [env_dir|];
      [destruct (Py.truthy env_dir)|]; eexists; reflexivity.
Qed.

Lemma get_base_branch_total custom_base e s :
  exists branch evs,
    Cli.get_base_branch custom_base e s = (Ok branch, logged s evs)
    /\ Forall is_git evs.
Proof.
  assert (Hprobes : forall bs, Forall is_git (probes_of bs)).
  { induction bs as [|b bs IH]; constructor; [|exact IH].
    unfold is_git, Cli.verify_cmd. do 2 eexists. reflexivity. }
  rewrite get_base_branch_run.
  destruct custom_base as [base|].
  - destruct (Py.truthy base).
    + destruct (Spec.verifies e base).
      * do 2 eexists. split; [reflexivity | apply (Hprobes [base])].
      * do 2 eexists. split; [reflexivity | apply (Hprobes (base :: _))].
    + do 2 eexists. split; [reflexivity | apply Hprobes].
  - do 2 eexists. split; [reflexivity | apply Hprobes].
Qed.

Lemma handled_total present path (force there : bool) branch_name base_dir
    repo_name ops e s :
  exists path' branch' ops' s1 evs,
    (if there
     then CliWorktree.handle_existing_worktree present path force branch_name
            base_dir repo_name ops
     else ret (path, branch_name, ops)) e s = (Ok (path', branch', ops'), s1)
    /\ log s1 = (log s ++ evs)%list
    /\ Forall is_git_or_removal evs
    /\ (branch' = branch_name
        \/ (force = false
            /\ exists suffix, branch' = branch_name ++ "-" ++ suffix)).
Proof.
  assert (Hgit : is_git_or_removal (Ran (CliWorktree.remove_cmd path) None)).
  { left. unfold is_git, CliWorktree.remove_cmd. do 2 eexists. reflexivity. }
  assert (Hq : is_git_or_removal removal_question) by (right; reflexivity).
  destruct there.
  - rewrite handle_existing_worktree_run. cbv zeta.
    destruct force.
    + do 4 eexists. exists [Ran (CliWorktree.remove_cmd path) None].
      split; [reflexivity|]. split; [reflexivity|].
      split; [constructor; [exact Hgit | constructor] | left; reflexivity].
    + destruct (answers e (prompts s)).
      * do 4 eexists.
        exists [removal_question; Ran (CliWorktree.remove_cmd path) None].
        split; [reflexivity|]. split; [reflexivity|].
        split; [|left; reflexivity].
        constructor; [exact Hq|]. constructor; [exact Hgit | constructor].
      * do 4 eexists. exists [removal_question].
        split; [reflexivity|]. split; [reflexivity|].
        split; [constructor; [exact Hq | constructor]|].
        right. split; [reflexivity|]. eexists. reflexivity.
  - exists path, branch_name, ops, s, []. split; [reflexivity|].
    split; [symmetry; apply app_nil_r|]. split; [constructor|].
    left. reflexivity.
Qed.

Lemma add_cmd_is_add is_existing path branch_name base_branch :
  exists args,
    add_cmd is_existing path branch_name base_branch =
    "git" :: "worktree" :: "add" :: args.
Proof. destruct is_existing; eexists; reflexivity. Qed.

(** X27: when [git worktree add] fails, [setup_worktree_and_launcher]
    exits with status 1.  Up to then it has run git processes only and has
    asked nothing but, at most, whether to remove an existing directory:
    no launcher is started for a worktree that could not be created. *)
Theorem setup_worktree_and_launcher_add_fails present loaded config ops e s :
  (forall args cwd,
     status e ("git" :: "worktree" :: "add" :: args) cwd <> 0%Z) ->
  exists evs ticks',
    CliWorktree.setup_worktree_and_launcher present loaded config ops e s =
      (Raise (SystemExit 1), {| log := log s ++ evs; ticks := ticks' |})
    /\ Forall is_git_or_removal evs.
Proof.
  intros Hadd. unfold CliWorktree.setup_worktree_and_launcher.
  destruct (get_worktree_base_dir_total
              (CliWorktree.WorktreeConfig.worktree_dir config) e s)
    as [dir Hdir].
  rewrite (bind_ok _ _ _ _ _ _ Hdir). cbv zeta.
  unfold bind at 1. unfold CliWorktree.path_exists at 1.
  match goal with
  | |- context [if ?there then CliWorktree.handle_existing_worktree
                                 ?pr ?p ?f ?b ?bd ?rn ?o else _] =>
      destruct (handled_total pr p f there b bd rn o e s)
        as (path' & branch' & ops' & s1 & evs1 & Hhandled & Hlog1 & Hall1 & _)
  end.
  rewrite (bind_ok _ _ _ _ _ _ Hhandled). cbv beta iota.
  destruct (get_base_branch_total
              (CliWorktree.WorktreeConfig.base_branch config) e s1)
    as (base & evs2 & Hbase & Hall2).
  rewrite (bind_ok _ _ _ _ _ _ Hbase).
  unfold bind at 1. rewrite create_worktree_run.
  destruct (add_cmd_is_add
              (CliWorktree.WorktreeConfig.is_existing_branch config)
              path' branch' base) as [args Hargs].
  assert (Hstatus : (status e (add_cmd
                        (CliWorktree.WorktreeConfig.is_existing_branch config)
                        path' branch' base) None =? 0)%Z = false).
  { apply Z.eqb_neq. rewrite Hargs. apply Hadd. }
  rewrite Hstatus. cbn [negb orb]. rewrite orb_true_r.
  unfold raise, logged. cbn [log ticks]. rewrite Hlog1.
  exists (evs1 ++ evs2
          ++ [Ran fetch_cmd None;
              Ran (add_cmd (CliWorktree.WorktreeConfig.is_existing_branch config)
                     path' branch' base) None])%list, (ticks s1).
  split; [rewrite <- !app_assoc; reflexivity|].
  apply Forall_app. split; [exact Hall1|].
  apply Forall_app. split.
  - eapply Forall_impl; [|exact Hall2]. intros ev H. left. exact H.
  - constructor; [left; unfold is_git, fetch_cmd; do 2 eexists; reflexivity|].
    constructor; [|constructor].
    left. rewrite Hargs. unfold is_git. do 2 eexists. reflexivity.
Qed.

Lemma setup_worktree_and_launcher_add_fails_witness :
  fst (CliWorktree.setup_worktree_and_launcher (World.sticky_disk [])
         World.dev_settings World.fix_bug_config [] World.broken_terminal
         World.initial) = Raise (SystemExit 1).
Proof.
  destruct (setup_worktree_and_launcher_add_fails (World.sticky_disk [])
              World.dev_settings World.fix_bug_config [] World.broken_terminal
              World.initial) as (evs & t & Hrun & _).
  - intros args cwd. discriminate.
  - rewrite Hrun. reflexivity.
Defined.

(** X28: whenever [setup_worktree_and_launcher] returns, the path and
    the branch it returns are those of a worktree that was created:
    [git worktree add] for them exited with status 0.  The branch is the
    configured one, or, without [force], that name with a suffix; and the
    configured launcher is a registered one. *)
Theorem setup_worktree_and_launcher_returns present loaded config ops e s
    path branch ops' s' :
  CliWorktree.setup_worktree_and_launcher present loaded config ops e s =
    (Ok (path, branch, ops'), s') ->
  (exists base_branch,
     status e (add_cmd (CliWorktree.WorktreeConfig.is_existing_branch config)
                 path branch base_branch) None = 0%Z)
  /\ (branch = CliWorktree.WorktreeConfig.branch_name config
      \/ (CliWorktree.WorktreeConfig.force config = false
          /\ exists suffix,
               branch = CliWorktree.WorktreeConfig.branch_name config
                        ++ "-" ++ suffix))
  /\ Spec.registered (CliWorktree.WorktreeConfig.launcher config) = true.
Proof.
  intros H. unfold CliWorktree.setup_worktree_and_launcher in H.
  apply bind_inv_ok in H. destruct H as (dir & s0 & _ & H).
  cbv zeta in H.
  apply bind_inv_ok in H. destruct H as (there & s0' & Hthere & H).
  unfold CliWorktree.path_exists in Hthere. injection Hthere as <- <-.
  apply bind_inv_ok in H. destruct H as ([[path1 branch1] ops1] & s1 & Hhandled & H).
  cbv beta iota in H.
  match type of Hhandled with
  | (if ?there then CliWorktree.handle_existing_worktree
                      ?pr ?p ?f ?b ?bd ?rn ?o else _) _ _ = _ =>
      destruct (handled_total pr p f there b bd rn o e s0)
        as (path' & branch' & ops'' & s1' & evs1 & Hrun & _ & _ & Hbranch)
  end.
  rewrite Hrun in Hhandled. injection Hhandled as <- <- <- <-.
  apply bind_inv_ok in H. destruct H as (base & s2 & _ & H).
  apply bind_inv_ok in H. destruct H as (created & s3 & Hcreated & H).
  rewrite create_worktree_run in Hcreated. injection Hcreated as <- _.
  destruct (status e (add_cmd _ path' branch' base) None =? 0)%Z eqn:Hstatus;
    cbn [negb] in H; [|discriminate H].
  apply bind_inv_ok in H. destruct H as (ops2 & s4 & _ & H).
  cbv zeta in H.
  apply bind_inv_ok in H. destruct H as (l & s5 & Hlauncher & H).
  apply bind_inv_ok in H. destruct H as (ok & s6 & _ & H).
  unfold ret in H. injection H as <- <- <- <-.
  split; [exists base; apply Z.eqb_eq; exact Hstatus|].
  split; [exact Hbranch|].
  rewrite get_launcher_run in Hlauncher. unfold Spec.registered.
  destruct (String.eqb (CliWorktree.WorktreeConfig.launcher config) "tmux");
    [reflexivity|].
  destruct (String.eqb (CliWorktree.WorktreeConfig.launcher config) "terminal");
    [reflexivity | discriminate Hlauncher].
Qed.

Lemma setup_worktree_and_launcher_returns_witness :
  exists base_branch,
    status World.working_terminal
      (add_cmd false "/srv/wt/project/fix-bug" "fix-bug" base_branch) None
    = 0%Z.
Proof.
  destruct (setup_worktree_and_launcher_returns (World.sticky_disk [])
              World.dev_settings World.fix_bug_config []
              World.working_terminal World.initial
              "/srv/wt/project/fix-bug" "fix-bug"
              [CliWorktree.Mkdir "/srv/wt/project"]
              (snd (CliWorktree.setup_worktree_and_launcher
                      (World.sticky_disk []) World.dev_settings
                      World.fix_bug_config [] World.working_terminal
                      World.initial)))
    as (H & _); [reflexivity | exact H].
Defined.

(** Inside tmux the question is about switching, and a user who agrees is
    switched to the window. *)
Example handle_attachment_inside_tmux :
  Launchers.handle_attachment World.usr_bin
    (Launchers.TmuxLauncher World.dev_settings) "/srv/wt/fix-bug" "fix-bug"
    (World.agreeing World.inside_tmux) World.initial =
  (Ok tt,
   logged World.initial
     [Asked "Switch to workspace window?";
      Ran ["/usr/bin/tmux"; "switch-client"; "-t"; "dev:fix-bug"] None])
  /\ Launchers.handle_attachment World.usr_bin
       (Launchers.TmuxLauncher World.quiet_settings) "/srv/wt/fix-bug"
       "fix-bug" (World.agreeing World.inside_tmux) World.initial =
     (Ok tt, World.initial).
Proof. split; reflexivity. Qed.

Lemma handle_branch_conflict_total_witness :
  exists name,
    fst (Cli.handle_branch_conflict "feature" World.feature_repo World.initial)
    = Ok (name, false)
    /\ name <> "feature".
Proof.
  destruct (handle_branch_conflict_total "feature" World.feature_repo
              World.initial) as (name & ie & s' & Hrun & _ & _ & Hfalse).
  pose proof (f_equal fst Hrun) as Hfst. vm_compute in Hfst.
  injection Hfst as <- <-.
  exists "feature-1". split; [reflexivity|].
  destruct (Hfalse eq_refl) as [[_ Hfree] | [Hne _]];
    [discriminate Hfree | exact Hne].
Defined.
